(** * saypi: bearer-token authentication and client request construction

    A shallow embedding of the two Go packages of the repository that carry
    its design content:

    - package [auth]   (Controller: CreateUser, GetUser, WrapC, getUser);
    - package [client] (Route, Vars, Client: NewRequest, Do, execute,
      UserExists);
    - package [app]    (Configuration, App: New, Close, buildDB, closeAll).

    Go's standard library is embedded as far as the code depends on it:
    SHA-256 (FIPS 180-4), HMAC (RFC 2104), base64 with the URL alphabet
    (RFC 4648), byte slices with their backing arrays, and the parts of
    net/http that the handlers touch.  net/url and the JSON decoders stay
    abstract operations of a section. *)

From Stdlib Require Import ZArith Lia List Ascii String Permutation.
From Stdlib Require Import Strings.Byte.
From stdpp Require Import base option list gmap strings.

Local Open Scope Z_scope.

(** ** Bytes *)

Module Bytes.

Definition to_Z (b : byte) : Z := Z.of_N (Byte.to_N b).

Definition of_Z (z : Z) : byte :=
  match Byte.of_N (Z.to_N (z mod 256)) with
  | Some b => b
  | None => x00
  end.

(** A 32-bit word as four bytes, most significant first. *)
Definition be32 (x : Z) : list byte :=
  [of_Z (Z.shiftr x 24); of_Z (Z.shiftr x 16); of_Z (Z.shiftr x 8); of_Z x].

(** A 64-bit word as eight bytes, most significant first. *)
Definition be64 (x : Z) : list byte :=
  be32 (Z.shiftr x 32) ++ be32 x.

Definition word_of_be (b3 b2 b1 b0 : byte) : Z :=
  Z.lor (Z.shiftl (to_Z b3) 24)
    (Z.lor (Z.shiftl (to_Z b2) 16) (Z.lor (Z.shiftl (to_Z b1) 8) (to_Z b0))).

(** Go's [[]byte(s)] and [string(b)]. *)
Definition of_string (s : string) : list byte := list_byte_of_string s.
Definition to_string (l : list byte) : string := string_of_list_byte l.

Definition xor (k : Z) (b : byte) : byte := of_Z (Z.lxor (to_Z b) k).

End Bytes.

(** ** crypto/sha256 *)

Module SHA256.

Definition mask32 : Z := 0xffffffff.
Definition add32 (x y : Z) : Z := Z.land (x + y) mask32.
Definition shl32 (x n : Z) : Z := Z.land (Z.shiftl x n) mask32.
Definition rotr (n x : Z) : Z := Z.lor (Z.shiftr x n) (shl32 x (32 - n)).
Definition not32 (x : Z) : Z := Z.lxor x mask32.

Definition Ch (x y z : Z) : Z := Z.lxor (Z.land x y) (Z.land (not32 x) z).
Definition Maj (x y z : Z) : Z :=
  Z.lxor (Z.land x y) (Z.lxor (Z.land x z) (Z.land y z)).
Definition bsig0 (x : Z) : Z := Z.lxor (rotr 2 x) (Z.lxor (rotr 13 x) (rotr 22 x)).
Definition bsig1 (x : Z) : Z := Z.lxor (rotr 6 x) (Z.lxor (rotr 11 x) (rotr 25 x)).
Definition ssig0 (x : Z) : Z := Z.lxor (rotr 7 x) (Z.lxor (rotr 18 x) (Z.shiftr x 3)).
Definition ssig1 (x : Z) : Z := Z.lxor (rotr 17 x) (Z.lxor (rotr 19 x) (Z.shiftr x 10)).

(** Words written in hexadecimal, separated by blanks. *)
Definition hex_digit (c : ascii) : option Z :=
  let n := Z.of_N (N_of_ascii c) in
  if (48 <=? n) && (n <=? 57) then Some (n - 48)
  else if (97 <=? n) && (n <=? 102) then Some (n - 87)
  else None.

Fixpoint hex_words (s : string) (cur : option Z) : list Z :=
  match s with
  | EmptyString => match cur with Some v => [v] | None => [] end
  | String c s' =>
      match hex_digit c with
      | Some d => hex_words s' (Some (16 * default 0 cur + d))
      | None => match cur with Some v => [v] | None => [] end ++ hex_words s' None
      end
  end.

(** The round constants of FIPS 180-4, section 4.2.2. *)
Definition K : list Z := Eval vm_compute in
  hex_words
    ("428a2f98 71374491 b5c0fbcf e9b5dba5 3956c25b 59f111f1 923f82a4 ab1c5ed5 " ++
     "d807aa98 12835b01 243185be 550c7dc3 72be5d74 80deb1fe 9bdc06a7 c19bf174 " ++
     "e49b69c1 efbe4786 0fc19dc6 240ca1cc 2de92c6f 4a7484aa 5cb0a9dc 76f988da " ++
     "983e5152 a831c66d b00327c8 bf597fc7 c6e00bf3 d5a79147 06ca6351 14292967 " ++
     "27b70a85 2e1b2138 4d2c6dfc 53380d13 650a7354 766a0abb 81c2c92e 92722c85 " ++
     "a2bfe8a1 a81a664b c24b8b70 c76c51a3 d192e819 d6990624 f40e3585 106aa070 " ++
     "19a4c116 1e376c08 2748774c 34b0bcb5 391c0cb3 4ed8aa4a 5b9cca4f 682e6ff3 " ++
     "748f82ee 78a5636f 84c87814 8cc70208 90befffa a4506ceb bef9a3f7 c67178f2")%string
    None.

(** The chaining value: eight 32-bit words. *)
Record digest := Digest { ha : Z; hb : Z; hc : Z; hd : Z; he : Z; hf : Z; hg : Z; hh : Z }.

Definition init : digest :=
  Digest 0x6a09e667 0xbb67ae85 0x3c6ef372 0xa54ff53a
         0x510e527f 0x9b05688c 0x1f83d9ab 0x5be0cd19.

(** The sixteen words of a 64-byte block. *)
Fixpoint words (bs : list byte) : list Z :=
  match bs with
  | b3 :: b2 :: b1 :: b0 :: rest => Bytes.word_of_be b3 b2 b1 b0 :: words rest
  | _ => []
  end.

(** Message schedule: [win] holds the last sixteen words, oldest first. *)
Fixpoint schedule (n : nat) (win : list Z) : list Z :=
  match n with
  | O => []
  | S n' =>
      let wt := add32 (add32 (ssig1 (nth 14 win 0)) (nth 9 win 0))
                      (add32 (ssig0 (nth 1 win 0)) (nth 0 win 0)) in
      wt :: schedule n' (tail win ++ [wt])
  end.

Definition round (s : digest) (kw : Z * Z) : digest :=
  let t1 := add32 (add32 (add32 (hh s) (bsig1 (he s))) (Ch (he s) (hf s) (hg s)))
                  (add32 (fst kw) (snd kw)) in
  let t2 := add32 (bsig0 (ha s)) (Maj (ha s) (hb s) (hc s)) in
  Digest (add32 t1 t2) (ha s) (hb s) (hc s) (add32 (hd s) t1) (he s) (hf s) (hg s).

Definition block (s : digest) (blk : list byte) : digest :=
  let w16 := words blk in
  let w := w16 ++ schedule 48 w16 in
  let r := fold_left round (combine K w) s in
  Digest (add32 (ha s) (ha r)) (add32 (hb s) (hb r)) (add32 (hc s) (hc r))
         (add32 (hd s) (hd r)) (add32 (he s) (he r)) (add32 (hf s) (hf r))
         (add32 (hg s) (hg r)) (add32 (hh s) (hh r)).

Fixpoint blocks (n : nat) (s : digest) (bs : list byte) : digest :=
  match n with
  | O => s
  | S n' => blocks n' (block s (firstn 64 bs)) (skipn 64 bs)
  end.

(** Padding: a one bit, zeros up to 56 mod 64, and the bit length. *)
Definition pad (msg : list byte) : list byte :=
  let len := Z.of_nat (length msg) in
  msg ++ [x80] ++ repeat x00 (Z.to_nat ((55 - len) mod 64)) ++ Bytes.be64 (8 * len).

Definition output (s : digest) : list byte :=
  Bytes.be32 (ha s) ++ Bytes.be32 (hb s) ++ Bytes.be32 (hc s) ++ Bytes.be32 (hd s) ++
  Bytes.be32 (he s) ++ Bytes.be32 (hf s) ++ Bytes.be32 (hg s) ++ Bytes.be32 (hh s).

(** [sha256.Sum256]. *)
Definition sum256 (msg : list byte) : list byte :=
  let p := pad msg in
  output (blocks (length p / 64)%nat init p).

Definition Size : nat := 32.
Definition BlockSize : nat := 64.

End SHA256.

(** ** crypto/hmac *)

(** What [hmac.New] needs of the hash constructor it is given
    ([func() hash.Hash]): the digest function, its size and block size. *)
Class HashFn := {
  hash_sum : list byte -> list byte;
  hash_size : nat;
  hash_block : nat
}.

Definition sha256_New : HashFn := {|
  hash_sum := SHA256.sum256;
  hash_size := SHA256.Size;
  hash_block := SHA256.BlockSize
|}.

Module HMAC.

Section Generic.
Context {H : HashFn}.

(** Keys longer than a block are hashed first; the key is then padded
    with zeros to one block. *)
Definition block_key (key : list byte) : list byte :=
  let k := if (hash_block <? length key)%nat then hash_sum key else key in
  k ++ repeat x00 (hash_block - length k).

(** RFC 2104: H(K xor opad, H(K xor ipad, text)). *)
Definition mac (key msg : list byte) : list byte :=
  let k := block_key key in
  hash_sum (map (Bytes.xor 0x5c) k ++ hash_sum (map (Bytes.xor 0x36) k ++ msg)).
End Generic.

End HMAC.

(** ** crypto/subtle *)

Module Subtle.

(** [ConstantTimeCompare]: 1 when the slices have equal contents, 0
    otherwise, and 0 at once when the lengths differ. *)
Definition ConstantTimeCompare (x y : list byte) : Z :=
  if negb (length x =? length y)%nat then 0
  else
    let v := fold_left
               (fun v (p : byte * byte) =>
                  Z.lor v (Z.lxor (Bytes.to_Z (fst p)) (Bytes.to_Z (snd p))))
               (combine x y) 0 in
    if v =? 0 then 1 else 0.

End Subtle.

(** ** encoding/base64, [URLEncoding] *)

Module Base64.

Definition encodeURL : string :=
  "ABCDEFGHIJKLMNOPQRSTUVWXYZabcdefghijklmnopqrstuvwxyz0123456789-_".

Definition padChar : ascii := "="%char.

(** The character of a 6-bit value. *)
Definition enc (v : Z) : ascii :=
  nth (Z.to_nat v) (list_ascii_of_string encodeURL) padChar.

Fixpoint index_of (c : ascii) (l : list ascii) (i : Z) : option Z :=
  match l with
  | [] => None
  | x :: l' => if Ascii.eqb x c then Some i else index_of c l' (i + 1)
  end.

(** [decodeMap]: the 6-bit value of a character, None standing for 0xFF. *)
Definition decodeMap (c : ascii) : option Z :=
  index_of c (list_ascii_of_string encodeURL) 0.

(** The four 6-bit values of three bytes [a], [b], [c]. *)
Definition sextet0 (a : Z) : Z := Z.shiftr a 2.
Definition sextet1 (a b : Z) : Z := Z.lor (Z.land (Z.shiftl a 4) 0x3f) (Z.shiftr b 4).
Definition sextet2 (b c : Z) : Z := Z.lor (Z.land (Z.shiftl b 2) 0x3f) (Z.shiftr c 6).
Definition sextet3 (c : Z) : Z := Z.land c 0x3f.

(** [Encode]: three bytes to four characters; the last quantum is filled
    with zero bits and padded. *)
Fixpoint encode (src : list byte) : list ascii :=
  match src with
  | [] => []
  | [x] =>
      let a := Bytes.to_Z x in
      [enc (sextet0 a); enc (sextet1 a 0); padChar; padChar]
  | [x; y] =>
      let a := Bytes.to_Z x in
      let b := Bytes.to_Z y in
      [enc (sextet0 a); enc (sextet1 a b); enc (sextet2 b 0); padChar]
  | x :: y :: z :: rest =>
      let a := Bytes.to_Z x in
      let b := Bytes.to_Z y in
      let c := Bytes.to_Z z in
      enc (sextet0 a) :: enc (sextet1 a b) :: enc (sextet2 b c) :: enc (sextet3 c)
      :: encode rest
  end.

Definition EncodeToString (src : list byte) : string :=
  string_of_list_ascii (encode src).

Definition EncodedLen (n : nat) : nat := ((n + 2) / 3 * 4)%nat.
Definition DecodedLen (n : nat) : nat := (n / 4 * 3)%nat.

(** The bytes of a quantum; byte arithmetic wraps at eight bits. *)
Definition byte0 (d0 d1 : Z) : byte := Bytes.of_Z (Z.lor (Z.shiftl d0 2) (Z.shiftr d1 4)).
Definition byte1 (d1 d2 : Z) : byte := Bytes.of_Z (Z.lor (Z.shiftl d1 4) (Z.shiftr d2 2)).
Definition byte2 (d2 d3 : Z) : byte := Bytes.of_Z (Z.lor (Z.shiftl d2 6) d3).

(** [decode]: the bytes decoded so far and whether the input was corrupt
    ([CorruptInputError]; its offset is not kept).  A quantum needs four
    characters; padding may only close the last quantum; anything after
    the padding is trailing garbage, reported after the quantum is
    stored. *)
Fixpoint decode (src : list ascii) : list byte * bool :=
  match src with
  | [] => ([], false)
  | c0 :: src1 =>
    match (if Ascii.eqb c0 padChar then None else decodeMap c0), src1 with
    | Some d0, c1 :: src2 =>
      match (if Ascii.eqb c1 padChar then None else decodeMap c1), src2 with
      | Some d1, c2 :: src3 =>
        if Ascii.eqb c2 padChar then
          match src3 with
          | c3 :: src4 =>
              if Ascii.eqb c3 padChar
              then ([byte0 d0 d1], negb (length src4 =? 0)%nat)
              else ([], true)
          | [] => ([], true)
          end
        else
          match decodeMap c2, src3 with
          | Some d2, c3 :: src4 =>
            if Ascii.eqb c3 padChar
            then ([byte0 d0 d1; byte1 d1 d2], negb (length src4 =? 0)%nat)
            else
              match decodeMap c3 with
              | Some d3 =>
                  let (rest, err) := decode src4 in
                  (byte0 d0 d1 :: byte1 d1 d2 :: byte2 d2 d3 :: rest, err)
              | None => ([], true)
              end
          | _, _ => ([], true)
          end
      | _, _ => ([], true)
      end
    | _, _ => ([], true)
    end
  end.

(** [removeNewlinesMapper]: carriage returns and line feeds are ignored. *)
Definition removeNewlines (l : list ascii) : list ascii :=
  filter (fun c => negb (Ascii.eqb c "010"%char || Ascii.eqb c "013"%char) = true) l.

End Base64.

(** Exhaustive checks over the byte and sextet ranges, run by evaluation. *)

Module Base64Check.
Import Base64.

Definition range (n : nat) : list Z := map Z.of_nat (seq 0 n).

(** A sextet's character is no padding and maps back to the sextet. *)
Definition sextet_ok (v : Z) : bool :=
  negb (Ascii.eqb (enc v) padChar) &&
  negb (Ascii.eqb (enc v) "010"%char || Ascii.eqb (enc v) "013"%char) &&
  bool_decide (decodeMap (enc v) = Some v).

Definition in_sextet (v : Z) : bool := (0 <=? v) && (v <? 64).

(** The sextets of two bytes are in range; the first and the last byte of a
    quantum are put together again from their sextets. *)
Definition pair_ok (a b : Z) : bool :=
  in_sextet (sextet0 a) && in_sextet (sextet1 a b) && in_sextet (sextet2 a b) &&
  in_sextet (sextet3 a) && in_sextet (sextet1 a 0) && in_sextet (sextet2 a 0) &&
  (Z.lor (Z.shiftl (sextet0 a) 2) (Z.shiftr (sextet1 a b) 4) mod 256 =? a) &&
  (Z.lor (Z.shiftl (sextet0 a) 2) (Z.shiftr (sextet1 a 0) 4) mod 256 =? a) &&
  (Z.lor (Z.shiftl (sextet2 a b) 6) (sextet3 b) mod 256 =? b).

(** The middle byte [b], with [k] the two low bits of the byte before it and
    [y] the two high bits of the byte after it. *)
Definition mid_ok (k b y : Z) : bool :=
  Z.lor (Z.shiftl (Z.lor (16 * k) (Z.shiftr b 4)) 4)
        (Z.shiftr (Z.lor (Z.land (Z.shiftl b 2) 0x3f) y) 2) mod 256 =? b.

Definition nibble_ok (a : Z) : bool :=
  (Z.land (Z.shiftl a 4) 0x3f =? 16 * (a mod 4)) &&
  (0 <=? Z.shiftr a 6) && (Z.shiftr a 6 <? 4).

End Base64Check.

(** ** Errors *)

(** Modelled from the spec: package usererrors is not among the sources.  A
    DomainError is a recognized application-level error carrying a
    machine-readable kind and a message. *)
Record UserError := { kind : string; message : string }.

(** An argument of a format string, kept unformatted. *)
Inductive fmtarg :=
| ArgInt (n : Z)
| ArgString (s : string)
| ArgStrings (l : list string).

(** Error values: those of github.com/juju/errors as the client builds
    them, a user error returned as an error, and the errors that library
    calls hand back ([LibError], opaque but for the package and the text;
    [fmt_Errorf] where the library's format is known). *)
Inductive error :=
| LibError (pkg msg : string)
| fmt_Errorf (format : string) (args : list fmtarg)
| errors_New (msg : string)
| errors_Errorf (format : string) (args : list fmtarg)
| errors_Annotate (cause : error) (msg : string)
| errors_Annotatef (cause : error) (format : string) (args : list fmtarg)
| UserErr (u : UserError).

(** ** Byte slices, the heap behind them, and the random source *)

Module Go.

(** A slice header: the backing array, the offset of the first element in
    it, and length and capacity counted from that offset. *)
Record slice := Slice { arr : nat; off : nat; len : nat; cap : nat }.

(** The arrays allocated so far, addressed by position, and the bytes that
    [crypto/rand.Reader] will deliver next. *)
Record world := World { heap : list (list byte); entropy : list byte }.

Inductive result (A : Type) :=
| Ok (a : A) (w : world)
| Panic (e : error).
Arguments Ok {A} a w.
Arguments Panic {A} e.

Definition M (A : Type) : Type := world -> result A.

#[export] Instance M_ret : MRet M := fun A a w => Ok a w.
#[export] Instance M_bind : MBind M := fun A B f m w =>
  match m w with
  | Ok a w' => f a w'
  | Panic e => Panic e
  end.

Definition panic {A} (e : error) : M A := fun _ => Panic e.

Definition array_at (h : list (list byte)) (a : nat) : list byte :=
  default [] (h !! a).

(** Overwrite [a] from position [pos] on with [data]. *)
Definition splice (a : list byte) (pos : nat) (data : list byte) : list byte :=
  take pos a ++ data ++ drop (pos + length data) a.

(** [make([]byte, n, c)]: a fresh zeroed array. *)
Definition make_bytes (n c : nat) : M slice := fun w =>
  if (c <? n)%nat then Panic (LibError "runtime" "makeslice: cap out of range")
  else Ok (Slice (length (heap w)) 0 n c)
          (World (heap w ++ [repeat x00 c]) (entropy w)).

(** The elements of a slice. *)
Definition load (s : slice) : M (list byte) := fun w =>
  Ok (take (len s) (drop (off s) (array_at (heap w) (arr s)))) w.

(** Write [data] into the backing array of [s], from element [i] on. *)
Definition store (s : slice) (i : nat) (data : list byte) : M unit := fun w =>
  Ok tt (World (<[arr s := splice (array_at (heap w) (arr s)) (off s + i) data]> (heap w))
               (entropy w)).

(** [s[lo:hi]]: the same array, seen from [lo]. *)
Definition reslice (s : slice) (lo hi : nat) : M slice :=
  if (lo <=? hi)%nat && (hi <=? cap s)%nat
  then mret (Slice (arr s) (off s + lo) (hi - lo) (cap s - lo))
  else panic (LibError "runtime" "slice bounds out of range").

(** Capacity of the array that replaces one of capacity [old] when
    [needed] elements must fit (doubling for small arrays, the runtime's
    rounding to size classes left out). *)
Definition growcap (old needed : nat) : nat :=
  if (2 * old <? needed)%nat then needed else (2 * old)%nat.

(** [append(s, data...)]: in place when the capacity allows, so that the
    bytes land in the array [s] shares with other slices; into a fresh
    array otherwise. *)
Definition append (s : slice) (data : list byte) : M slice :=
  let n := (len s + length data)%nat in
  if (n <=? cap s)%nat then
    _ ← store s (len s) data;
    mret (Slice (arr s) (off s) n (cap s))
  else
    old ← load s;
    t ← make_bytes n (growcap (cap s) n);
    _ ← store t 0 (old ++ data);
    mret t.

(** [crypto/rand.Read(b)]: fill [b] ([len b] bytes) from the random
    source; an error when the source cannot deliver that many. *)
Definition rand_Read (b : slice) : M (nat * option error) := fun w =>
  if (len b <=? length (entropy w))%nat then
    match store b 0 (take (len b) (entropy w)) w with
    | Ok _ w' => Ok (len b, None) (World (heap w') (drop (len b) (entropy w)))
    | Panic e => Panic e
    end
  else
    match store b 0 (entropy w) w with
    | Ok _ w' => Ok (length (entropy w), Some (LibError "io" "unexpected EOF"))
                    (World (heap w') [])
    | Panic e => Panic e
    end.

(** [base64.URLEncoding.DecodeString]: the input without its line breaks is
    decoded into a buffer of [DecodedLen] bytes; the result is the filled
    prefix of that buffer. *)
Definition base64_DecodeString (s : string) : M (slice * bool) :=
  let src := Base64.removeNewlines (list_ascii_of_string s) in
  let (out, err) := Base64.decode src in
  dbuf ← make_bytes (Base64.DecodedLen (length src)) (Base64.DecodedLen (length src));
  _ ← store dbuf 0 out;
  raw ← reslice dbuf 0 (length out);
  mret (raw, err).

(** An HMAC being computed: the hash it was made with, the key and the
    bytes written so far. *)
Record hmac := Hmac { hfn : HashFn; hkey : list byte; hwritten : list byte }.

Definition hmac_New (h : HashFn) (key : list byte) : hmac := Hmac h key [].
Definition hmac_Size (m : hmac) : nat := @hash_size (hfn m).

(** [Sum(in)] appends the current MAC to [in] and returns the resulting
    slice. *)
Definition hmac_Sum (m : hmac) (b : slice) : M slice :=
  append b (@HMAC.mac (hfn m) (hkey m) (hwritten m)).

(** [hmac.Equal]. *)
Definition hmac_Equal (mac1 mac2 : slice) : M bool :=
  x ← load mac1;
  y ← load mac2;
  mret (Subtle.ConstantTimeCompare x y =? 1).

End Go.

(** ** net/url and net/http: the data the code touches *)

Module Http.

(** [url.URL]. *)
Record URL := {
  Scheme : string;
  Opaque : string;
  User : option string;
  Host : string;
  Path : string;
  RawQuery : string;
  Fragment : string
}.

Definition emptyURL : URL := Build_URL "" "" None "" "" "" "".

Definition with_RawQuery (u : URL) (q : string) : URL :=
  Build_URL (Scheme u) (Opaque u) (User u) (Host u) (Path u) q (Fragment u).

(** [http.Header], a map from canonical header names to their values. *)
Definition Header_Get (h : gmap string (list string)) (key : string) : string :=
  match h !! key with
  | Some (v :: _) => v
  | _ => ""
  end.

Definition Header_Set (h : gmap string (list string)) (key value : string)
  : gmap string (list string) :=
  <[key := [value]]> h.

Definition Header_Add (h : gmap string (list string)) (key value : string)
  : gmap string (list string) :=
  <[key := default [] (h !! key) ++ [value]]> h.

(** [http.Request]; the body is nil or the contents of a buffer. *)
Record Request := {
  Method : string;
  ReqURL : URL;
  Header : gmap string (list string);
  Body : option string;
  ReqHost : string
}.

Definition with_Header (r : Request) (h : gmap string (list string)) : Request :=
  Build_Request (Method r) (ReqURL r) h (Body r) (ReqHost r).

(** [httptest.ResponseRecorder], the response writer of the test client. *)
Record ResponseRecorder := {
  Code : Z;
  HeaderMap : gmap string (list string);
  RecBody : string;
  wroteHeader : bool
}.

Definition NewRecorder : ResponseRecorder :=
  Build_ResponseRecorder 200 ∅ "" false.

Definition WriteHeader (w : ResponseRecorder) (code : Z) : ResponseRecorder :=
  if wroteHeader w then w
  else Build_ResponseRecorder code (HeaderMap w) (RecBody w) true.

Definition Write (w : ResponseRecorder) (buf : string) : ResponseRecorder :=
  let w := if wroteHeader w then w else WriteHeader w 200 in
  Build_ResponseRecorder (Code w) (HeaderMap w) (RecBody w ++ buf) (wroteHeader w).

Definition SetHeader (w : ResponseRecorder) (key value : string) : ResponseRecorder :=
  Build_ResponseRecorder (Code w) (Header_Set (HeaderMap w) key value) (RecBody w)
                         (wroteHeader w).

Definition newline : string := String "010"%char EmptyString.

Definition StatusUnauthorized : Z := 401.
Definition StatusNotFound : Z := 404.
Definition StatusNoContent : Z := 204.

(** [http.Error]: a plain-text reply with the given status; the message is
    printed with a line break. *)
Definition Error (w : ResponseRecorder) (msg : string) (code : Z) : ResponseRecorder :=
  let w := SetHeader w "Content-Type" "text/plain; charset=utf-8" in
  let w := SetHeader w "X-Content-Type-Options" "nosniff" in
  let w := WriteHeader w code in
  Write w (msg ++ newline).

(** [context.Context] as far as values go: the chain of [WithValue]
    bindings, the latest first. *)
Definition Context : Type := list (string * string).

Definition WithValue (ctx : Context) (key val : string) : Context :=
  (key, val) :: ctx.

Fixpoint Value (ctx : Context) (key : string) : option string :=
  match ctx with
  | [] => None
  | (k, v) :: parent => if String.eqb k key then Some v else Value parent key
  end.

(** [mux.HandlerC]: a handler serves a request into the response writer,
    within a context. *)
Definition HandlerC : Type :=
  Context -> ResponseRecorder -> Request -> Go.M ResponseRecorder.

(** [strings.HasPrefix] and [strings.TrimPrefix]. *)
Fixpoint HasPrefix (s pre : string) {struct pre} : bool :=
  match pre, s with
  | EmptyString, _ => true
  | String p pre', String x s' => Ascii.eqb p x && HasPrefix s' pre'
  | String _ _, EmptyString => false
  end.

Fixpoint drop_chars (n : nat) (s : string) : string :=
  match n, s with
  | S n', String _ s' => drop_chars n' s'
  | _, _ => s
  end.

Definition TrimPrefix (s pre : string) : string :=
  if HasPrefix s pre then drop_chars (String.length pre) s else s.

Definition quote : string := String "034"%char EmptyString.

(** [encoding/json] on a string of printable ASCII: quotation mark and
    backslash are escaped with a backslash, the characters that are special
    in HTML are written as \u00XX.  (Control characters and bytes above
    0x7f are left out: tokens are base64 text.) *)
Definition json_escape_char (c : ascii) : string :=
  if Ascii.eqb c "034"%char then String "\"%char quote
  else if Ascii.eqb c "\"%char then "\\"
  else if Ascii.eqb c "<"%char then "\u003c"
  else if Ascii.eqb c ">"%char then "\u003e"
  else if Ascii.eqb c "&"%char then "\u0026"
  else String c EmptyString.

Fixpoint json_escape (s : string) : string :=
  match s with
  | EmptyString => EmptyString
  | String c s' => json_escape_char c ++ json_escape s'
  end.

Definition json_string (s : string) : string := quote ++ json_escape s ++ quote.

(** The token characters of RFC 7230 ([httpguts.IsTokenRune]): letters,
    digits and fifteen marks. *)
Definition isTokenChar (c : ascii) : bool :=
  let n := nat_of_ascii c in
  ((48 <=? n) && (n <=? 57))%nat || ((65 <=? n) && (n <=? 90))%nat
  || ((97 <=? n) && (n <=? 122))%nat
  || existsb (Ascii.eqb c) (list_ascii_of_string "!#$%&'*+-.^_`|~").

(** [validMethod] of net/http: a method is a non-empty token. *)
Definition validMethod (method : string) : bool :=
  (0 <? String.length method)%nat && forallb isTokenChar (list_ascii_of_string method).

End Http.

(** ** Package auth *)

Module Auth.
Import Go Http.

Record Controller := { secret : list byte }.

Definition idLen : nat := 16.

Definition New (secret : list byte) : Controller := {| secret := secret |}.

(** [json.NewEncoder(w).Encode(res)] for [res] of type
    [struct { ID string `json:"id"` }]: the object, then a line break.
    Encoding a string into a recorder does not fail, so the panic that
    follows it in [CreateUser] has no case here. *)
Definition encode_res (w : ResponseRecorder) (ID : string) : ResponseRecorder :=
  Write w ("{" ++ json_string "id" ++ ":" ++ json_string ID ++ "}" ++ newline).

Definition CreateUser (c : Controller) : HandlerC := fun ctx w r =>
  user ← make_bytes 0 idLen;
  '(_, err) ← rand_Read user;
  match err with
  | Some e => panic e
  | None =>
      mac ← hmac_Sum (hmac_New sha256_New (secret c)) user;
      macBytes ← load mac;
      user ← append user macBytes;
      userBytes ← load user;
      mret (encode_res w (Base64.EncodeToString userBytes))
  end.

Definition getUser (c : Controller) (auth : string) : M string :=
  let mac := hmac_New sha256_New (secret c) in
  '(raw, err) ← base64_DecodeString auth;
  if (err : bool) then mret ""
  else if negb (len raw =? idLen + hmac_Size mac)%nat then mret ""
  else
    id ← reslice raw 0 idLen;
    msgMac ← reslice raw idLen (len raw);
    sum ← hmac_Sum mac id;
    eq ← hmac_Equal msgMac sum;
    if (eq : bool) then
      idBytes ← load id;
      mret (Bytes.to_string idBytes)
    else mret "".

Definition WrapC (c : Controller) (inner : HandlerC) : HandlerC := fun ctx w r =>
  let auth := Header_Get (Header r) "Authorization" in
  if negb (HasPrefix auth "Bearer ") then
    mret (Error w "You must provide a Bearer token in an Authorization header"
                StatusUnauthorized)
  else
    let auth := TrimPrefix auth "Bearer " in
    user ← getUser c auth;
    if negb (String.eqb user "") then
      inner (WithValue ctx "userID" "") w r
    else
      mret (Error w "Invalid authentication string" StatusUnauthorized).

End Auth.

(** ** Package client *)

(** [reflect.Kind]. *)
Inductive Kind :=
| Invalid | Bool | Int | Int8 | Int16 | Int32 | Int64
| Uint | Uint8 | Uint16 | Uint32 | Uint64 | Uintptr
| Float32 | Float64 | Complex64 | Complex128
| Array | Chan | Func | Interface | Map | Ptr | Slice | String_ | Struct
| UnsafePointer.

Definition is_Ptr (k : Kind) : bool :=
  match k with Ptr => true | _ => false end.

(** A non-nil [interface{}] value as [reflect] sees it: the kind of its
    dynamic type and that type's name. *)
Record iface := { ikind : Kind; itype : string }.

(** [reflect.ValueOf(v).Kind()], [v] being nil or a value. *)
Definition rv_Kind (v : option iface) : Kind :=
  match v with
  | None => Invalid
  | Some i => ikind i
  end.

(** [Route] describes an API route for building client requests.
    [HTTPMethods] must return exactly one method unless the additional
    methods are only one of OPTIONS and HEAD. *)
Class Route (R : Type) := {
  HTTPMethods : R -> gset string;
  URLPath : R -> gmap string string -> error + string
}.

(** [Vars] emits a mapping from path variable names to values. *)
Class Vars (V : Type) := {
  vars_of : V -> gmap string string
}.

#[export] Instance varmap : Vars (gmap string string) := {| vars_of v := v |}.

Module Client.
Import Http.

(** [resp.Body]: the bytes still to be read, the error that reading runs
    into after them (if any), and whether it was closed. *)
Record BodyReader := {
  content : list byte;
  failure : option error;
  closed : bool
}.

Record Response := {
  StatusCode : Z;
  RespHeader : gmap string (list string);
  RespBody : BodyReader
}.

(** [ioutil.ReadAll]. *)
Definition ioutil_ReadAll (b : BodyReader) : error + list byte :=
  match failure b with
  | Some e => inl e
  | None => inr (content b)
  end.

(** The deferred [resp.Body.Close()]. *)
Definition Close (resp : Response) : Response :=
  Build_Response (StatusCode resp) (RespHeader resp)
    (Build_BodyReader (content (RespBody resp)) (failure (RespBody resp)) true).

(** Lines 103-122 of NewRequest, the loop over the collected [methods]:
    the only method, or the only one that is neither HEAD nor OPTIONS. *)
Fixpoint pick_method (methods : list string) (method : string) (ms : list string)
  : error + string :=
  match ms with
  | [] => inr method
  | m :: ms' =>
      if negb (String.eqb m "HEAD") && negb (String.eqb m "OPTIONS") then
        if negb (String.eqb method "") then
          inl (errors_Errorf "route defines multiple non-HEAD/OPTIONS methods: %s"
                             [ArgStrings methods])
        else pick_method methods m ms'
      else pick_method methods method ms'
  end.

(** The test of line 115. *)
Definition primary (m : string) : bool :=
  negb (String.eqb m "HEAD") && negb (String.eqb m "OPTIONS").

Definition resolve_method (methods : list string) : error + string :=
  if (length methods =? 0)%nat then
    inl (errors_New "route does not define any HTTPMethods")
  else if (length methods =? 1)%nat then
    inr (nth 0 methods "")
  else pick_method methods "" methods.

(** What [Do] hands back: the response, the error, and the value that was
    stored through the pointer [v]. *)
Record DoResult (J : Type) := {
  resp : option Response;
  err : option error;
  stored : option J
}.
Arguments Build_DoResult {J} _ _ _.
Arguments resp {J} _.
Arguments err {J} _.
Arguments stored {J} _.

Section Library.

(** Whatever the transport acts on: connections, the server. *)
Variable W : Type.

(** net/url: [url.Parse], [URL.ResolveReference], [URL.String],
    [url.Values.Encode]. *)
Variable url_Parse : string -> error + URL.
Variable URL_ResolveReference : URL -> URL -> URL.
Variable URL_String : URL -> string.
Variable Values_Encode : gmap string (list string) -> string.

(** encoding/json: decoding the body into the value [v] points to.  A
    decode that succeeds leaves the decoded value there.  One that fails may
    have assigned to that value before it fails (a member of the wrong type
    is skipped, the others are set, and the error comes at the end): the
    error comes with what was stored, if anything was. *)
Variable J : Type.
Variable json_Decode : BodyReader -> iface -> (error * option J) + J.

(** Modelled from the spec: [usererrors.UnmarshalJSON] is not among the
    sources.  It decodes an error body into a structured application
    error, or fails. *)
Variable usererrors_UnmarshalJSON : list byte -> error + UserError.

Record Client := {
  baseURL : URL;
  do : Request -> W -> (error + Response) * W;
  auth : string
}.

Definition SetAuthorization (c : Client) (a : string) : Client :=
  {| baseURL := baseURL c; do := do c; auth := a |}.

(** [http.NewRequest]: the empty method stands for GET, a method that is
    no token is refused; then the URL is parsed, and the header map of the
    request is fresh. *)
Definition http_NewRequest (method urlStr : string) (body : option string)
  : error + Request :=
  let method := if String.eqb method "" then "GET"%string else method in
  if negb (validMethod method) then
    inl (fmt_Errorf "net/http: invalid method %q" [ArgString method])
  else
    match url_Parse urlStr with
    | inl e => inl e
    | inr u => inr (Build_Request method u ∅ body (Host u))
    end.

(** Lines 86-91: the variables of [rtVars], or an empty map when it is nil. *)
Definition vars_or_empty {V : Type} `{Vars V} (rtVars : option V) : gmap string string :=
  match rtVars with
  | Some v => vars_of v
  | None => ∅
  end.

(** [order] is the order in which [range rt.HTTPMethods()] yields the
    methods; Go leaves it unspecified. *)
Definition NewRequest {R V : Type} `{Route R} `{Vars V}
    (order : list string) (c : Client) (rt : R) (rtVars : option V)
    (form : option (gmap string (list string))) : error + Request :=
  let vars := vars_or_empty rtVars in
  match URLPath rt vars with
  | inl e => inl (errors_Annotate e "unable to generate request path")
  | inr path =>
    match url_Parse path with
    | inl e => inl (errors_Annotatef e "unparseable request path %q" [ArgString path])
    | inr rel =>
      match resolve_method order with
      | inl e => inl e
      | inr method =>
        let abs := URL_ResolveReference (baseURL c) rel in
        let '(abs, body) :=
          match form with
          | Some f =>
              let encoded := Values_Encode f in
              if String.eqb method "GET" || String.eqb method "HEAD"
              then (with_RawQuery abs encoded, None)
              else (abs, Some encoded)
          | None => (abs, None)
          end in
        match http_NewRequest method (URL_String abs) body with
        | inl e => inl e
        | inr req =>
          let req :=
            if negb (String.eqb (auth c) "")
            then with_Header req
                   (Header_Add (Header req) "Authorization" ("Bearer " ++ auth c))
            else req in
          let req :=
            match body with
            | Some _ => with_Header req
                          (Header_Set (Header req) "Content-Type"
                                      "application/x-www-form-urlencoded")
            | None => req
            end in
          inr req
        end
      end
    end
  end.

(** [Do] sends an API request and returns the API response. *)
Definition Do (c : Client) (req : Request) (v : option iface) (w : W)
  : DoResult J * W :=
  if negb (bool_decide (v = None) || is_Ptr (rv_Kind v)) then
    (Build_DoResult None
       (Some (errors_Errorf "value must be a pointer or nil not %s"
                [ArgString (from_option itype "" v)]))
       None, w)
  else
    match do c req w with
    | (inl e, w') => (Build_DoResult None (Some e) None, w')
    | (inr resp, w') =>
      if StatusCode resp >? 399 then
        match ioutil_ReadAll (RespBody resp) with
        | inl e =>
            (Build_DoResult (Some (Close resp))
               (Some (errors_Annotate e "unable to read response body")) None, w')
        | inr body =>
          match usererrors_UnmarshalJSON body with
          | inl e =>
              (Build_DoResult (Some (Close resp))
                 (Some (errors_Annotate e "unable to parse error body")) None, w')
          | inr uerr =>
              (Build_DoResult (Some (Close resp)) (Some (UserErr uerr)) None, w')
          end
        end
      else if (StatusCode resp >? 299) || (StatusCode resp <? 199) then
        (Build_DoResult (Some (Close resp))
           (Some (errors_Errorf "unexpected status code %d" [ArgInt (StatusCode resp)]))
           None, w')
      else
        match v with
        | Some i =>
          match json_Decode (RespBody resp) i with
          | inl (e, partial) =>
              (Build_DoResult (Some (Close resp))
                 (Some (errors_Annotate e "unable to parse response body")) partial, w')
          | inr j => (Build_DoResult (Some (Close resp)) None (Some j), w')
          end
        | None => (Build_DoResult (Some (Close resp)) None None, w')
        end
    end.

Definition execute {R V : Type} `{Route R} `{Vars V}
    (order : list string) (c : Client) (rt : R) (rtVars : option V)
    (form : option (gmap string (list string))) (v : option iface) (w : W)
  : DoResult J * W :=
  match NewRequest order c rt rtVars form with
  | inl e => (Build_DoResult None (Some e) None, w)
  | inr req =>
    let '(r, w') := Do c req v w in
    match err r with
    | Some e => (Build_DoResult None (Some e) (stored r), w')
    | None => (r, w')
    end
  end.

End Library.

Arguments Build_Client {W} _ _ _.
Arguments baseURL {W} _.
Arguments do {W} _ _ _.
Arguments auth {W} _.
Arguments SetAuthorization {W} _ _.

End Client.

(** ** The token codec in the words of the specification

    Kept apart from the code above, to state what the specification asks of
    a token. *)

Module Spec.
Import Auth.

Definition MACLength : nat := SHA256.Size.

(** MAC: HMAC-SHA256 over the Identity bytes using the secret. *)
Definition MAC (c : Controller) (identity : list byte) : list byte :=
  @HMAC.mac sha256_New (secret c) identity.

(** Token: base64url(Identity || MAC(Identity)). *)
Definition token (c : Controller) (identity : list byte) : string :=
  Base64.EncodeToString (identity ++ MAC c identity).

(** A token is valid iff decoding yields exactly IdentityLength + MACLength
    bytes and the trailing MAC bytes equal the MAC of the leading Identity
    bytes. *)
Definition valid (c : Controller) (t : string) : Prop :=
  exists raw,
    Base64.decode (Base64.removeNewlines (list_ascii_of_string t)) = (raw, false) /\
    length raw = (idLen + MACLength)%nat /\
    drop idLen raw = MAC c (take idLen raw).

End Spec.

(** ** A concrete environment

    Stand-ins for the library operations the client is parameterised by,
    small enough to evaluate requests and responses in.  They agree with
    the libraries on the inputs used below: URL references of the form
    path?query#fragment without scheme, authority, escapes or dot segments,
    and forms with one key and plain values. *)

Module TestEnv.
Import Http Client.

(** Split at the first occurrence of [c]. *)
Fixpoint split (c : ascii) (s : string) : string * string :=
  match s with
  | EmptyString => (EmptyString, EmptyString)
  | String x s' =>
      if Ascii.eqb x c then (EmptyString, s')
      else let (a, b) := split c s' in (String x a, b)
  end.

Fixpoint contains (c : ascii) (s : string) : bool :=
  match s with
  | EmptyString => false
  | String x s' => Ascii.eqb x c || contains c s'
  end.

Definition url_Parse (rawurl : string) : error + URL :=
  let (u, frag) := split "#" rawurl in
  let (rest, query) := split "?" u in
  if contains ":" rest || contains "%" rest || HasPrefix rest "//"
  then inl (LibError "url" "reference outside the supported form")
  else inr (Build_URL "" "" None "" rest query frag).

Definition URL_ResolveReference (u ref : URL) : URL :=
  let inherit := String.eqb (Path ref) "" && String.eqb (RawQuery ref) "" in
  Build_URL (Scheme u) "" (User u) (Host u)
    (if String.eqb (Path ref) "" then Path u else Path ref)
    (if inherit then RawQuery u else RawQuery ref)
    (if inherit && String.eqb (Fragment ref) "" then Fragment u else Fragment ref).

Definition URL_String (u : URL) : string :=
  (if String.eqb (Scheme u) "" then "" else Scheme u ++ ":") ++
  (if String.eqb (Scheme u) "" && String.eqb (Host u) "" then "" else "//" ++ Host u) ++
  Path u ++
  (if String.eqb (RawQuery u) "" then "" else "?" ++ RawQuery u) ++
  (if String.eqb (Fragment u) "" then "" else "#" ++ Fragment u).

Definition Values_Encode (f : gmap string (list string)) : string :=
  String.concat "&"
    (flat_map (fun kv : string * list string =>
                 map (fun v : string => (fst kv ++ "=" ++ v)%string) (snd kv))
              (map_to_list f)).

(** The decoded payload is the body as it stands; when the body cannot be
    read, nothing is stored. *)
Definition json_Decode (b : BodyReader) (v : iface) : (error * option (list byte)) + list byte :=
  match ioutil_ReadAll b with
  | inl e => inl (e, None)
  | inr body => inr body
  end.

Definition cut_prefix (pre s : string) : option string :=
  if HasPrefix s pre then Some (drop_chars (String.length pre) s) else None.

(** Error bodies: an object with the members kind and message, in that
    order, written without spaces or escapes. *)
Definition usererrors_UnmarshalJSON (body : list byte) : error + UserError :=
  let bad := inl (LibError "json" "not an error object") in
  match cut_prefix ("{" ++ json_string "kind" ++ ":" ++ quote) (Bytes.to_string body) with
  | None => bad
  | Some s1 =>
      let (k, s2) := split "034" s1 in
      match cut_prefix ("," ++ json_string "message" ++ ":" ++ quote) s2 with
      | None => bad
      | Some s3 =>
          let (m, s4) := split "034" s3 in
          if String.eqb s4 "}" then inr {| kind := k; message := m |} else bad
      end
  end.

Definition error_body (k m : string) : list byte :=
  Bytes.of_string ("{" ++ json_string "kind" ++ ":" ++ json_string k ++ ","
                   ++ json_string "message" ++ ":" ++ json_string m ++ "}").

(** A route given by its method set and its path function. *)
Record route := { methods : gset string; path : gmap string string -> error + string }.

#[export] Instance route_Route : Route route :=
  {| HTTPMethods := methods; URLPath := path |}.

(** A transport that answers every request with [r] and records the
    requests it was given. *)
Definition canned (r : Response) : Request -> list Request -> (error + Response) * list Request :=
  fun req log => (inr r, log ++ [req]).

Definition reply (code : Z) (body : list byte) : Response :=
  Build_Response code ∅ (Build_BodyReader body None false).

Definition client (r : Response) : Client (list Request) :=
  {| baseURL := emptyURL; do := canned r; auth := "" |}.

Definition NewRequest := @Client.NewRequest (list Request) url_Parse URL_ResolveReference
                           URL_String Values_Encode route (gmap string string) _ _.

Definition Do := @Client.Do (list Request) (list byte) json_Decode usererrors_UnmarshalJSON.

(** Sample data. *)
Definition get_animals : route :=
  {| methods := {["GET"]}; path := fun _ => inr "/animals" |}.
Definition get_and_head : route :=
  {| methods := {["GET"; "HEAD"]}; path := fun _ => inr "/animals" |}.
Definition search : route :=
  {| methods := {["POST"]}; path := fun _ => inr "/search?q=1" |}.
Definition set_mood : route :=
  {| methods := {["PUT"]}; path := fun _ => inr "/moods/happy" |}.
Definition two_primaries : route :=
  {| methods := {["GET"; "POST"]}; path := fun _ => inr "/moods" |}.
Definition no_methods : route :=
  {| methods := ∅; path := fun _ => inr "/moods" |}.
Definition unroutable : route :=
  {| methods := ∅; path := fun _ => inl (LibError "mux" "missing variable") |}.
Definition form_ab : gmap string (list string) := {["a" := ["b"]]}.
Definition teapot : Response := reply 418 (Bytes.of_string "I am a teapot").
Definition not_found : Response := reply 404 (error_body "not_found" "no such user").
Definition user_value : iface := {| ikind := Struct; itype := "auth.User" |}.
Definition some_request : Request := Build_Request "GET" emptyURL ∅ None "".

Definition key : list byte := Bytes.of_string "secret".
Definition identity : list byte := repeat x07 16.
Definition valid_token : string :=
  "BwcHBwcHBwcHBwcHBwcHB3ez2qKAyRE-MnaSSpuN9CXrjatoYFFXpEzMjOIyT88I".
Definition bearer (tok : string) : Request :=
  Build_Request "GET" emptyURL {["Authorization" := [("Bearer " ++ tok)%string]]} None "".

End TestEnv.

(** ** Package auth: the existence check *)

Module AuthRoutes.
Import Go Http Auth.

(** [http.NotFound]. *)
Definition http_NotFound (w : ResponseRecorder) (r : Request) : ResponseRecorder :=
  Error w "404 page not found" StatusNotFound.

Section Mux.

(** Modelled from the spec: package mux is not among the sources.
    [mux.GetURLVar] is the router's path-variable extraction: the value
    bound to a name in the context of the request, if there is one. *)
Variable mux_GetURLVar : Context -> string -> option string.

(** [panic] with a string: the text is kept as the message of the error the
    panic of the model carries. *)
Definition GetUser (c : Controller) : HandlerC := fun ctx w r =>
  match mux_GetURLVar ctx "id" with
  | None => panic (errors_New "GetUser called without an `id` URL Var")
  | Some auth =>
      user ← getUser c auth;
      if negb (String.eqb user "") then mret (WriteHeader w 204)
      else mret (http_NotFound w r)
  end.

End Mux.

End AuthRoutes.

(** ** Package client: calls on routes *)

Module ClientCalls.
Import Http Client.

(** What [auth.User] shows of itself to the client: its [ID] field.  The
    type is declared outside the sources; its [Vars] are an instance the
    section takes. *)
Record User := { ID : string }.

(** How a call comes back: with its results, or not at all when it follows
    a nil response. *)
Inductive outcome (A : Type) :=
| Returned (a : A) (e : option error)
| NilDereference.
Arguments Returned {A} a e.
Arguments NilDereference {A}.

(** [err.(usererrors.NotFound)]: only a user error can be of that type. *)
Definition asserts_NotFound (is_NotFound : UserError -> bool) (e : error) : bool :=
  match e with
  | UserErr u => is_NotFound u
  | _ => false
  end.

Section Library.

Variable W : Type.
Variable url_Parse : string -> error + URL.
Variable URL_ResolveReference : URL -> URL -> URL.
Variable URL_String : URL -> string.
Variable Values_Encode : gmap string (list string) -> string.
Variable J : Type.
Variable json_Decode : BodyReader -> iface -> (error * option J) + J.
Variable usererrors_UnmarshalJSON : list byte -> error + UserError.

(** Modelled from the spec: which user errors are of the type
    [usererrors.NotFound]. *)
Variable is_NotFound : UserError -> bool.

(** [app.Routes.GetUser], a route declared outside the sources, and the
    variables of a user. *)
Context {R : Type} `{Route R} `{Vars User}.
Variable Routes_GetUser : R.

Definition UserExists (order : list string) (c : Client W) (id : string) (w : W)
  : outcome bool * W :=
  let '(r, w') :=
    @execute W url_Parse URL_ResolveReference URL_String Values_Encode J json_Decode
             usererrors_UnmarshalJSON R User _ _
             order c Routes_GetUser (Some {| ID := id |}) None None w in
  match err r with
  | Some e =>
      if asserts_NotFound is_NotFound e then (Returned false None, w')
      else (Returned false (Some e), w')
  | None =>
      match resp r with
      | Some x => (Returned (StatusCode x =? StatusNoContent) None, w')
      | None => (NilDereference, w')
      end
  end.

End Library.

End ClientCalls.

(** ** Package app *)

Module App.
Import Go Http Auth.

(** [Configuration] represents the configuration for an App. *)
Record Configuration := {
  DBDSN : string;
  DBMaxIdle : Z;
  DBMaxOpen : Z;
  UserSecret : list byte
}.

Section Resources.

(** What closing and opening act on: connections, files. *)
Variable W : Type.

(** An [io.Closer], by what its [Close] does. *)
Definition Closer : Type := W -> option error * W.

Fixpoint closeAll (closers : list Closer) (w : W) : option error * W :=
  match closers with
  | [] => (None, w)
  | cls :: rest =>
      match cls w with
      | (Some e, w') => (Some e, w')
      | (None, w') => closeAll rest w'
      end
  end.

(** github.com/jmoiron/sqlx: a database handle, opening one, its pool
    settings and its [Close]. *)
Variable DB : Type.
Variable sqlx_Open : string -> string -> W -> (error + DB) * W.
Variable SetMaxIdleConns : DB -> Z -> W -> W.
Variable SetMaxOpenConns : DB -> Z -> W -> W.
Variable DB_Close : DB -> Closer.

Definition buildDB (dsn : string) (maxIdle maxOpen : Z) (w : W) : (error + DB) * W :=
  match sqlx_Open "postgres" dsn w with
  | (inl e, w') => (inl e, w')
  | (inr db, w') => (inr db, SetMaxOpenConns db maxOpen (SetMaxIdleConns db maxIdle w'))
  end.

(** Modelled from the spec: package mux is not among the sources.  A router
    is made empty, takes routes and a handler for what matches none, and
    serves as a handler itself. *)
Variable Mux : Type.
Variable mux_New : Mux.
Variable mux_RouteFuncC : Mux -> string -> string -> HandlerC -> Mux.
Variable mux_set_NotFoundHandler : Mux -> HandlerC -> Mux.
Variable mux_ServeHTTPC : Mux -> HandlerC.
Variable mux_GetURLVar : Context -> string -> option string.

(** [App] encapsulates the handlers for the saypi API. *)
Record App := {
  Srv : option Mux;
  closers : list Closer
}.

(** [Close] cleans up any resources used by the app. *)
Definition Close (a : App) (w : W) : option error * W := closeAll (closers a) w.

(** [New] creates an App for the given configuration.  The deferred
    [app.Close()] of the failing branch runs as the function returns; its
    result is dropped. *)
Definition New (config : Configuration) (w : W) : (option App * option error) * W :=
  let app := {| Srv := None; closers := [] |} in
  match buildDB (DBDSN config) (DBMaxIdle config) (DBMaxOpen config) w with
  | (inl e, w1) => ((None, Some e), snd (Close app w1))
  | (inr db, w1) =>
      let app := {| Srv := Srv app; closers := closers app ++ [DB_Close db] |} in
      let authCtrl := Auth.New (UserSecret config) in
      let mainMux := mux_New in
      let privMux := mux_New in
      let mainMux := mux_set_NotFoundHandler mainMux (WrapC authCtrl (mux_ServeHTTPC privMux)) in
      let mainMux := mux_RouteFuncC mainMux "POST" "/users" (CreateUser authCtrl) in
      let mainMux := mux_RouteFuncC mainMux "GET" "/users/:id"
                                    (AuthRoutes.GetUser mux_GetURLVar authCtrl) in
      let app := {| Srv := Some mainMux; closers := closers app |} in
      ((None, None), w1)
  end.

End Resources.

End App.

(** ** More of the concrete environment *)

Module Samples.
Import Http Client ClientCalls TestEnv.

(** The variables of a user: its id. *)
Definition user_vars : Vars User := {| vars_of u := {["id"%string := ID u]} |}.

(** A route for the existence check, with the id in its path. *)
Definition get_user : route :=
  {| methods := {["GET"%string]};
     path := fun vars =>
               match vars !! "id"%string with
               | Some id => inr ("/users/" ++ id)%string
               | None => inl (LibError "mux" "missing variable")
               end |}.

Definition companions : route :=
  {| methods := {["HEAD"; "OPTIONS"]}%string; path := fun _ => inr "/moods"%string |}.

Definition head_only : route :=
  {| methods := {["HEAD"%string]}; path := fun _ => inr "/moods"%string |}.

Definition no_token : route :=
  {| methods := {["GET IT"%string]}; path := fun _ => inr "/moods"%string |}.

Definition kind_is_not_found (u : UserError) : bool := String.eqb (kind u) "not_found".

(** A decoder that assigns what it read and then reports a member of the
    wrong type. *)
Definition mistyped_Decode (b : BodyReader) (v : iface)
  : (error * option (list byte)) + list byte :=
  match ioutil_ReadAll b with
  | inl e => inl (e, None)
  | inr body => inl (LibError "json" "cannot unmarshal number into Go value of type string",
                     Some body)
  end.

Definition UserExists :=
  @ClientCalls.UserExists (list Request) url_Parse URL_ResolveReference URL_String
    Values_Encode (list byte) json_Decode usererrors_UnmarshalJSON kind_is_not_found
    route route_Route user_vars get_user.

Definition user_request : Request :=
  Build_Request "GET" (Build_URL "" "" None "" "/users/abc" "" "") ∅ None "".

(** A transport that fails, and records the request all the same. *)
Definition refused : Request -> list Request -> (error + Response) * list Request :=
  fun req log => (inl (LibError "net" "connection refused"), log ++ [req]).

Definition user_pointer : iface := {| ikind := Ptr; itype := "*auth.User" |}.

(** Closers over a record of what was closed. *)
Definition closes (name : string) : App.Closer (list string) :=
  fun log => (None, log ++ [name]).
Definition fails_to_close (name : string) : App.Closer (list string) :=
  fun log => (Some (LibError "io" name), log).

End Samples.

(** * Properties *)

(** ** Test vectors *)

Module Vectors.

(** FIPS 180-4, the one-block message abc. *)
Example sha256_abc :
  map Bytes.to_Z (SHA256.sum256 (Bytes.of_string "abc")) =
  [0xba; 0x78; 0x16; 0xbf; 0x8f; 0x01; 0xcf; 0xea; 0x41; 0x41; 0x40; 0xde; 0x5d; 0xae;
   0x22; 0x23; 0xb0; 0x03; 0x61; 0xa3; 0x96; 0x17; 0x7a; 0x9c; 0xb4; 0x10; 0xff; 0x61;
   0xf2; 0x00; 0x15; 0xad].
Proof. by vm_compute. Qed.

(** RFC 4231, test case 2. *)
Example hmac_sha256_jefe :
  map Bytes.to_Z (@HMAC.mac sha256_New (Bytes.of_string "Jefe")
                    (Bytes.of_string "what do ya want for nothing?")) =
  [0x5b; 0xdc; 0xc1; 0x46; 0xbf; 0x60; 0x75; 0x4e; 0x6a; 0x04; 0x24; 0x26; 0x08; 0x95;
   0x75; 0xc7; 0x5a; 0x00; 0x3f; 0x08; 0x9d; 0x27; 0x39; 0x83; 0x9d; 0xec; 0x58; 0xb9;
   0x64; 0xec; 0x38; 0x43].
Proof. by vm_compute. Qed.

(** RFC 4648, section 10, and the two characters of the URL alphabet. *)
Example base64_foobar :
  Base64.EncodeToString (Bytes.of_string "foobar") = "Zm9vYmFy"%string /\
  Base64.EncodeToString (Bytes.of_string "fooba") = "Zm9vYmE="%string /\
  Base64.EncodeToString (Bytes.of_string "foob") = "Zm9vYg=="%string /\
  Base64.EncodeToString [xfb; xff; xfe] = "-__-"%string.
Proof. by vm_compute. Qed.

(** Padding is required, and nothing may follow it. *)
Example base64_corrupt :
  (Base64.decode (list_ascii_of_string "Zm9vYmF")).2 = true /\
  (Base64.decode (list_ascii_of_string "Zm9vYg==Zm9v")).2 = true /\
  Base64.decode (list_ascii_of_string "Zm9vYg==") = (Bytes.of_string "foob", false).
Proof. by vm_compute. Qed.

End Vectors.

(** ** Base64: decoding undoes encoding *)

Module Base64Facts.
Import Base64 Base64Check.

Lemma range_forallb (P : Z -> bool) (n : nat) :
  forallb P (range n) = true -> forall z, 0 <= z < Z.of_nat n -> P z = true.
Proof.
  intros Hall z Hz.
  rewrite forallb_forall in Hall. apply Hall.
  apply in_map_iff. exists (Z.to_nat z). split; [lia|].
  apply in_seq. lia.
Qed.

Lemma to_Z_range b : 0 <= Bytes.to_Z b < 256.
Proof. unfold Bytes.to_Z. pose proof (Byte.to_N_bounded b). lia. Qed.

Lemma of_to_Z b : Bytes.of_Z (Bytes.to_Z b) = b.
Proof.
  unfold Bytes.of_Z, Bytes.to_Z.
  rewrite Z.mod_small by (pose proof (Byte.to_N_bounded b); lia).
  by rewrite N2Z.id, Byte.of_to_N.
Qed.

Lemma of_Z_mod x b : x mod 256 = Bytes.to_Z b -> Bytes.of_Z x = b.
Proof.
  intros Hx. rewrite <- (of_to_Z b). unfold Bytes.of_Z at 1 2.
  rewrite Hx. by rewrite (Z.mod_small (Bytes.to_Z b)) by apply to_Z_range.
Qed.

Lemma sextets_ok v : 0 <= v < 64 -> sextet_ok v = true.
Proof. intros Hv. apply (range_forallb sextet_ok 64); [by vm_compute|lia]. Qed.

Lemma pairs_ok a b : 0 <= a < 256 -> 0 <= b < 256 -> pair_ok a b = true.
Proof.
  intros Ha Hb.
  pose proof (range_forallb (fun a => forallb (pair_ok a) (range 256)) 256
                ltac:(by vm_compute) a Ha) as H.
  exact (range_forallb _ 256 H b Hb).
Qed.

Lemma mids_ok k b y : 0 <= k < 4 -> 0 <= b < 256 -> 0 <= y < 4 -> mid_ok k b y = true.
Proof.
  intros Hk Hb Hy.
  pose proof (range_forallb
                (fun k => forallb (fun b => forallb (mid_ok k b) (range 4)) (range 256)) 4
                ltac:(by vm_compute) k Hk) as H.
  cbv beta in H.
  pose proof (range_forallb _ 256 H b Hb) as H'. cbv beta in H'.
  exact (range_forallb _ 4 H' y Hy).
Qed.

Lemma nibbles_ok a : 0 <= a < 256 -> nibble_ok a = true.
Proof. intros Ha. apply (range_forallb nibble_ok 256); [by vm_compute|lia]. Qed.

Ltac split_ok H :=
  repeat match type of H with
  | (_ && _)%bool = true => let H' := fresh H in apply andb_prop in H as [H H']
  end.

Lemma enc_decodeMap v :
  0 <= v < 64 ->
  Ascii.eqb (enc v) padChar = false /\ decodeMap (enc v) = Some v /\
  (Ascii.eqb (enc v) "010"%char || Ascii.eqb (enc v) "013"%char) = false.
Proof.
  intros Hv. pose proof (sextets_ok v Hv) as H.
  unfold sextet_ok in H. split_ok H.
  apply negb_true_iff in H, H1. by apply bool_decide_eq_true in H0.
Qed.

Lemma sextet_ranges a b :
  0 <= sextet0 (Bytes.to_Z a) < 64 /\ 0 <= sextet1 (Bytes.to_Z a) (Bytes.to_Z b) < 64 /\
  0 <= sextet2 (Bytes.to_Z a) (Bytes.to_Z b) < 64 /\ 0 <= sextet3 (Bytes.to_Z a) < 64 /\
  0 <= sextet1 (Bytes.to_Z a) 0 < 64 /\ 0 <= sextet2 (Bytes.to_Z a) 0 < 64.
Proof.
  pose proof (pairs_ok _ _ (to_Z_range a) (to_Z_range b)) as H.
  unfold pair_ok, in_sextet in H. split_ok H. lia.
Qed.

Lemma byte0_sextets a b :
  byte0 (sextet0 (Bytes.to_Z a)) (sextet1 (Bytes.to_Z a) (Bytes.to_Z b)) = a.
Proof.
  pose proof (pairs_ok _ _ (to_Z_range a) (to_Z_range b)) as H.
  unfold pair_ok in H. split_ok H. apply of_Z_mod. lia.
Qed.

Lemma byte0_sextets_last a :
  byte0 (sextet0 (Bytes.to_Z a)) (sextet1 (Bytes.to_Z a) 0) = a.
Proof.
  pose proof (pairs_ok _ _ (to_Z_range a) (to_Z_range a)) as H.
  unfold pair_ok in H. split_ok H. apply of_Z_mod. lia.
Qed.

Lemma byte2_sextets b c :
  byte2 (sextet2 (Bytes.to_Z b) (Bytes.to_Z c)) (sextet3 (Bytes.to_Z c)) = c.
Proof.
  pose proof (pairs_ok _ _ (to_Z_range b) (to_Z_range c)) as H.
  unfold pair_ok in H. split_ok H. apply of_Z_mod. lia.
Qed.

Lemma byte1_sextets_mid a b y :
  0 <= y < 4 ->
  Z.lor (Z.shiftl (sextet1 (Bytes.to_Z a) (Bytes.to_Z b)) 4)
        (Z.shiftr (Z.lor (Z.land (Z.shiftl (Bytes.to_Z b) 2) 0x3f) y) 2) mod 256
  = Bytes.to_Z b.
Proof.
  intros Hy.
  pose proof (nibbles_ok _ (to_Z_range a)) as Ha.
  unfold nibble_ok in Ha. split_ok Ha. apply Z.eqb_eq in Ha.
  pose proof (mids_ok (Bytes.to_Z a mod 4) (Bytes.to_Z b) y) as H.
  unfold mid_ok in H. unfold sextet1. rewrite Ha.
  apply Z.eqb_eq, H; [|apply to_Z_range|lia].
  apply Z.mod_pos_bound. lia.
Qed.

Lemma byte1_sextets a b c :
  byte1 (sextet1 (Bytes.to_Z a) (Bytes.to_Z b)) (sextet2 (Bytes.to_Z b) (Bytes.to_Z c)) = b.
Proof.
  pose proof (nibbles_ok _ (to_Z_range c)) as Hc.
  unfold nibble_ok in Hc. split_ok Hc.
  apply of_Z_mod. unfold sextet2 at 1. apply byte1_sextets_mid. lia.
Qed.

Lemma byte1_sextets_last a b :
  byte1 (sextet1 (Bytes.to_Z a) (Bytes.to_Z b)) (sextet2 (Bytes.to_Z b) 0) = b.
Proof.
  apply of_Z_mod. unfold sextet2 at 1. change (Z.shiftr 0 6) with 0.
  apply byte1_sextets_mid. lia.
Qed.

Lemma decode_quantum d0 d1 d2 d3 rest :
  0 <= d0 < 64 -> 0 <= d1 < 64 -> 0 <= d2 < 64 -> 0 <= d3 < 64 ->
  decode (enc d0 :: enc d1 :: enc d2 :: enc d3 :: rest) =
    (byte0 d0 d1 :: byte1 d1 d2 :: byte2 d2 d3 :: (decode rest).1, (decode rest).2).
Proof.
  intros H0 H1 H2 H3.
  destruct (enc_decodeMap _ H0) as (P0 & M0 & _), (enc_decodeMap _ H1) as (P1 & M1 & _),
           (enc_decodeMap _ H2) as (P2 & M2 & _), (enc_decodeMap _ H3) as (P3 & M3 & _).
  cbn [decode]. rewrite P0, M0, P1, M1, P2, M2, P3, M3.
  by destruct (decode rest).
Qed.

(** Every byte string is decoded back from its encoding, without error. *)
Lemma decode_encode bs : decode (encode bs) = (bs, false).
Proof.
  remember (length bs) as n eqn:Hn. revert bs Hn.
  induction n as [n IH] using lt_wf_ind. intros bs Hn.
  destruct bs as [|a [|b [|c rest]]]; [reflexivity| | |].
  - destruct (sextet_ranges a a) as (R0 & _ & _ & _ & R1 & _).
    destruct (enc_decodeMap _ R0) as (P0 & M0 & _), (enc_decodeMap _ R1) as (P1 & M1 & _).
    cbn [encode decode]. rewrite P0, M0, P1, M1.
    cbn. by rewrite byte0_sextets_last.
  - destruct (sextet_ranges a b) as (R0 & R1 & _ & _ & _ & _).
    destruct (sextet_ranges b b) as (_ & _ & _ & _ & _ & R2).
    destruct (enc_decodeMap _ R0) as (P0 & M0 & _), (enc_decodeMap _ R1) as (P1 & M1 & _),
             (enc_decodeMap _ R2) as (P2 & M2 & _).
    cbn [encode decode]. rewrite P0, M0, P1, M1, P2, M2.
    cbn. by rewrite byte0_sextets, byte1_sextets_last.
  - destruct (sextet_ranges a b) as (R0 & R1 & _ & _ & _ & _).
    destruct (sextet_ranges b c) as (_ & _ & R2 & _ & _ & _).
    destruct (sextet_ranges c c) as (_ & _ & _ & R3 & _ & _).
    cbn [encode].
    rewrite (decode_quantum _ _ _ _ _ R0 R1 R2 R3).
    rewrite (IH (length rest)) by (subst n; cbn [length]; lia || reflexivity).
    cbn [fst snd].
    by rewrite byte0_sextets, byte1_sextets, byte2_sextets.
Qed.

Lemma removeNewlines_cons_keep c l :
  (Ascii.eqb c "010"%char || Ascii.eqb c "013"%char) = false ->
  removeNewlines (c :: l) = c :: removeNewlines l.
Proof.
  intros Hc. unfold removeNewlines. rewrite filter_cons_True; [done|].
  by rewrite Hc.
Qed.

(** An encoding holds no line breaks for the decoder to skip. *)
Lemma removeNewlines_encode bs : removeNewlines (encode bs) = encode bs.
Proof.
  remember (length bs) as n eqn:Hn. revert bs Hn.
  induction n as [n IH] using lt_wf_ind. intros bs Hn.
  destruct bs as [|a [|b [|c rest]]]; [reflexivity| | |].
  - destruct (sextet_ranges a a) as (R0 & _ & _ & _ & R1 & _).
    destruct (enc_decodeMap _ R0) as (_ & _ & N0), (enc_decodeMap _ R1) as (_ & _ & N1).
    cbn [encode]. by rewrite !removeNewlines_cons_keep.
  - destruct (sextet_ranges a b) as (R0 & R1 & _ & _ & _ & _).
    destruct (sextet_ranges b b) as (_ & _ & _ & _ & _ & R2).
    destruct (enc_decodeMap _ R0) as (_ & _ & N0), (enc_decodeMap _ R1) as (_ & _ & N1),
             (enc_decodeMap _ R2) as (_ & _ & N2).
    cbn [encode]. by rewrite !removeNewlines_cons_keep.
  - destruct (sextet_ranges a b) as (R0 & R1 & _ & _ & _ & _).
    destruct (sextet_ranges b c) as (_ & _ & R2 & _ & _ & _).
    destruct (sextet_ranges c c) as (_ & _ & _ & R3 & _ & _).
    destruct (enc_decodeMap _ R0) as (_ & _ & N0), (enc_decodeMap _ R1) as (_ & _ & N1),
             (enc_decodeMap _ R2) as (_ & _ & N2), (enc_decodeMap _ R3) as (_ & _ & N3).
    cbn [encode]. rewrite !removeNewlines_cons_keep by done.
    by rewrite (IH (length rest)) by (subst n; cbn [length]; lia || reflexivity).
Qed.

(** What [DecodeString] sees of a string made by [EncodeToString]. *)
Lemma decode_EncodeToString bs :
  decode (removeNewlines (list_ascii_of_string (EncodeToString bs))) = (bs, false).
Proof.
  unfold EncodeToString.
  by rewrite list_ascii_of_string_of_list_ascii, removeNewlines_encode, decode_encode.
Qed.

Lemma quantum_div k : ((4 + k) / 4 * 3 = 3 + k / 4 * 3)%nat.
Proof.
  replace (4 + k)%nat with (1 * 4 + k)%nat by lia.
  rewrite Nat.div_add_l by lia. lia.
Qed.

(** The decoder never produces more than the buffer [DecodeString] makes
    for it can hold. *)
Lemma decode_length src : (length (decode src).1 <= DecodedLen (length src))%nat.
Proof.
  unfold DecodedLen.
  remember (length src) as n eqn:Hn. revert src Hn.
  induction n as [n IH] using lt_wf_ind. intros src Hn. subst n.
  destruct src as [|c0 [|c1 [|c2 [|c3 src4]]]];
    try (simpl; repeat case_match; simpl; lia).
  change (length (c0 :: c1 :: c2 :: c3 :: src4)) with (4 + length src4)%nat in *.
  rewrite quantum_div.
  specialize (IH (length src4) ltac:(lia) src4 eq_refl).
  remember (length src4 / 4 * 3)%nat as R.
  simpl. repeat case_match; simpl in *; try lia.
Qed.

End Base64Facts.

(** ** Slices and the heap *)

Module GoFacts.
Import Go.

Lemma run_bind {A B} (m : M A) (f : A -> M B) w :
  (m ≫= f) w = match m w with Ok a w' => f a w' | Panic e => Panic e end.
Proof. reflexivity. Qed.

Lemma array_at_fresh h a : array_at (h ++ [a]) (length h) = a.
Proof. unfold array_at. by rewrite lookup_app_r, Nat.sub_diag. Qed.

Lemma insert_fresh (h : list (list byte)) a b : <[length h := b]> (h ++ [a]) = h ++ [b].
Proof. rewrite insert_app_r_alt, Nat.sub_diag; done. Qed.

Lemma splice_length a pos d :
  (pos + length d <= length a)%nat -> length (splice a pos d) = length a.
Proof.
  intros Hle. unfold splice.
  rewrite !length_app, length_take, length_drop. lia.
Qed.

Lemma splice_full a d : length a = length d -> splice a 0 d = d.
Proof.
  intros Hlen. unfold splice. rewrite take_0, app_nil_l.
  rewrite drop_ge by (cbn [Nat.add]; lia). apply app_nil_r.
Qed.

Lemma splice_nil a pos : splice a pos [] = a.
Proof. unfold splice. cbn [length app]. rewrite Nat.add_0_r. apply take_drop. Qed.

Lemma make_bytes_run n c w :
  (n <= c)%nat ->
  make_bytes n c w = Ok (Slice (length (heap w)) 0 n c)
                        (World (heap w ++ [repeat x00 c]) (entropy w)).
Proof.
  intros Hle. unfold make_bytes.
  by destruct (Nat.ltb_spec c n); [lia|].
Qed.

Lemma reslice_run s lo hi w :
  (lo <= hi)%nat -> (hi <= cap s)%nat ->
  reslice s lo hi w = Ok (Slice (arr s) (off s + lo) (hi - lo) (cap s - lo)) w.
Proof.
  intros H1 H2. unfold reslice.
  apply Nat.leb_le in H1, H2. by rewrite H1, H2.
Qed.

(** Appending within the capacity writes into the array the slice shares. *)
Lemma append_in_place s d w :
  (len s + length d <= cap s)%nat ->
  append s d w =
    Ok (Slice (arr s) (off s) (len s + length d) (cap s))
       (World (<[arr s := splice (array_at (heap w) (arr s)) (off s + len s) d]> (heap w))
              (entropy w)).
Proof.
  intros Hle. unfold append.
  apply Nat.leb_le in Hle. by rewrite Hle.
Qed.

(** Appending beyond the capacity moves the elements to a new array. *)
Lemma append_fresh s d w :
  (cap s < len s + length d)%nat ->
  append s d w =
    Ok (Slice (length (heap w)) 0 (len s + length d) (growcap (cap s) (len s + length d)))
       (World (heap w ++
                 [splice (repeat x00 (growcap (cap s) (len s + length d))) 0
                         (take (len s) (drop (off s) (array_at (heap w) (arr s))) ++ d)])
              (entropy w)).
Proof.
  intros Hlt. unfold append.
  destruct (Nat.leb_spec (len s + length d) (cap s)); [lia|].
  rewrite run_bind. unfold load at 1. rewrite run_bind.
  rewrite make_bytes_run.
  2:{ unfold growcap. case_match; [lia|]. apply Nat.ltb_ge in H0. lia. }
  rewrite run_bind. unfold store. cbn [heap entropy arr off].
  by rewrite array_at_fresh, insert_fresh.
Qed.

Lemma ConstantTimeCompare_lengths x y :
  length x <> length y -> Subtle.ConstantTimeCompare x y = 0.
Proof.
  intros Hne. unfold Subtle.ConstantTimeCompare.
  by destruct (Nat.eqb_spec (length x) (length y)).
Qed.

Lemma sum256_length m : length (SHA256.sum256 m) = SHA256.Size.
Proof. reflexivity. Qed.

Lemma mac_length key msg : length (@HMAC.mac sha256_New key msg) = 32%nat.
Proof. apply sum256_length. Qed.

(** The decoded bytes sit at the start of a buffer of their own. *)
Lemma base64_DecodeString_run s w :
  let src := Base64.removeNewlines (list_ascii_of_string s) in
  let D := Base64.DecodedLen (length src) in
  let out := (Base64.decode src).1 in
  base64_DecodeString s w =
    Ok (Slice (length (heap w)) 0 (length out) D, (Base64.decode src).2)
       (World (heap w ++ [splice (repeat x00 D) 0 out]) (entropy w)).
Proof.
  intros src D out. unfold base64_DecodeString. fold src.
  pose proof (Base64Facts.decode_length src) as Hlen. fold D out in Hlen.
  subst out. destruct (Base64.decode src) as [out err]. cbn [fst snd] in *.
  fold D.
  rewrite run_bind, make_bytes_run by lia.
  rewrite run_bind. unfold store at 1. cbn [heap entropy arr off].
  rewrite array_at_fresh, insert_fresh.
  rewrite run_bind, reslice_run by (cbn [cap]; lia).
  cbn [arr off cap Nat.add]. by rewrite !Nat.sub_0_r.
Qed.

End GoFacts.

(** ** Package auth *)

Module AuthFacts.
Import Go Http Auth GoFacts.

(** [getUser] returns the empty string whatever it is given: the MAC it
    compares the 32 trailing bytes with is the 48-byte slice that [Sum]
    returns, and slices of different lengths never compare equal.  (The
    call also overwrites those trailing bytes, which share their array with
    the identity.) *)
Lemma getUser_invalid c auth w : exists w', getUser c auth w = Ok ""%string w'.
Proof.
  unfold getUser.
  rewrite run_bind, base64_DecodeString_run.
  set (src := Base64.removeNewlines _).
  pose proof (Base64Facts.decode_length src) as Hlen.
  destruct (Base64.decode src) as [out err]. cbn [fst snd] in *.
  set (D := Base64.DecodedLen (length src)) in *.
  destruct err; [eexists; reflexivity|].
  cbn [len].
  change (idLen + hmac_Size (hmac_New sha256_New (secret c)))%nat with 48%nat.
  destruct (Nat.eqb_spec (length out) 48) as [H48|]; [|eexists; reflexivity].
  cbn [negb]. rewrite H48 in *.
  rewrite run_bind, reslice_run by (cbn [cap]; unfold idLen; lia).
  rewrite run_bind, reslice_run by (cbn [cap]; unfold idLen; lia).
  cbn [arr off cap].
  rewrite run_bind. unfold hmac_Sum.
  rewrite append_in_place.
  2:{ cbn [len cap hfn hmac_New]. rewrite mac_length. unfold idLen. lia. }
  cbn [arr off len cap heap entropy].
  rewrite array_at_fresh, insert_fresh.
  rewrite run_bind. unfold hmac_Equal.
  rewrite run_bind. unfold load at 1. rewrite run_bind. unfold load at 1.
  cbn [arr off len heap]. rewrite array_at_fresh.
  rewrite ConstantTimeCompare_lengths; [eexists; reflexivity|].
  set (mac := HMAC.mac _ _).
  assert (length mac = 32%nat) as Hmac by apply mac_length.
  assert (length (splice (repeat x00 D) 0 out) = D) as HD.
  { rewrite splice_length; rewrite repeat_length; lia. }
  rewrite !length_take, !length_drop, splice_length; rewrite ?HD; unfold idLen in *; lia.
Qed.

(** [CreateUser] reads nothing from the random source: the slice it passes
    to [rand.Read] has length 0.  Its token encodes the MAC of the empty
    message alone. *)
Lemma CreateUser_run c ctx rw r w :
  exists w',
    CreateUser c ctx rw r w =
      Ok (encode_res rw (Base64.EncodeToString (@HMAC.mac sha256_New (secret c) []))) w' /\
    entropy w' = entropy w.
Proof.
  unfold CreateUser.
  rewrite run_bind, make_bytes_run by (unfold idLen; lia).
  rewrite run_bind. unfold rand_Read. cbn [len heap entropy Nat.leb].
  unfold store. cbn [arr off heap entropy Nat.add].
  rewrite take_0, drop_0, array_at_fresh, splice_nil, insert_fresh.
  rewrite run_bind. unfold hmac_Sum. cbn [hfn hkey hwritten hmac_New].
  set (mac := HMAC.mac _ _).
  assert (length mac = 32%nat) as Hmac by apply mac_length.
  rewrite append_fresh by (cbn [len cap]; unfold idLen; lia).
  cbn [len cap arr off heap entropy]. rewrite Hmac.
  change (growcap idLen (0 + 32)) with 32%nat.
  rewrite take_0, app_nil_l, splice_full by (by rewrite repeat_length).
  rewrite run_bind. unfold load at 1. cbn [len arr off heap].
  rewrite drop_0, array_at_fresh, firstn_all2 by (cbn [Nat.add]; lia).
  rewrite run_bind, append_fresh by (cbn [len cap]; unfold idLen; lia).
  cbn [len cap arr off heap entropy]. rewrite Hmac.
  change (growcap idLen (0 + 32)) with 32%nat.
  rewrite take_0, app_nil_l, splice_full by (by rewrite repeat_length).
  rewrite run_bind. unfold load at 1. cbn [len arr off heap].
  rewrite drop_0, array_at_fresh, firstn_all2 by (cbn [Nat.add]; lia).
  eexists. split; reflexivity.
Qed.

Lemma bearer_header tok :
  Header_Get (Header (TestEnv.bearer tok)) "Authorization" = ("Bearer " ++ tok)%string.
Proof. reflexivity. Qed.

Lemma TrimPrefix_Bearer tok :
  HasPrefix ("Bearer " ++ tok) "Bearer " = true /\
  TrimPrefix ("Bearer " ++ tok) "Bearer " = tok.
Proof. split; reflexivity. Qed.

(** A token in the words of the specification is valid in those words. *)
Lemma spec_token_valid c identity :
  length identity = idLen -> Spec.valid c (Spec.token c identity).
Proof.
  intros Hlen. exists (identity ++ Spec.MAC c identity).
  unfold Spec.token. rewrite Base64Facts.decode_EncodeToString.
  split; [done|]. split.
  - rewrite length_app, Hlen. unfold Spec.MAC. by rewrite mac_length.
  - rewrite <- Hlen. by rewrite drop_app_length, take_app_length.
Qed.

(** Every request is answered with 401, by one of two messages. *)
Lemma WrapC_unauthorized c ctx rw r w :
  exists msg w',
    (forall inner, WrapC c inner ctx rw r w = Ok (Error rw msg StatusUnauthorized) w') /\
    (msg = "You must provide a Bearer token in an Authorization header"%string \/
     msg = "Invalid authentication string"%string).
Proof.
  unfold WrapC.
  destruct (HasPrefix (Header_Get (Header r) "Authorization") "Bearer ").
  - destruct (getUser_invalid c (TrimPrefix (Header_Get (Header r) "Authorization") "Bearer ") w)
      as [w' Hw'].
    exists "Invalid authentication string"%string, w'. split; [|by right].
    intros inner. cbn [negb]. by rewrite run_bind, Hw'.
  - eexists _, w. split; [|by left]. intros inner. reflexivity.
Qed.

(** The token CreateUser issues under the sample key. *)
Example issued_token_sample :
  Base64.EncodeToString (@HMAC.mac sha256_New TestEnv.key []) =
    "-eZuF5tnR65UEI-C-K3os8Jddv0wr95sOVgixTAZYWk="%string /\
  forall ctx r,
    CreateUser (New TestEnv.key) ctx NewRecorder r (World [] [x01; x02; x03]) =
      Ok (encode_res NewRecorder "-eZuF5tnR65UEI-C-K3os8Jddv0wr95sOVgixTAZYWk=")
         (World [repeat x00 16; @HMAC.mac sha256_New TestEnv.key [];
                 @HMAC.mac sha256_New TestEnv.key []]
                [x01; x02; x03]).
Proof. split; [by vm_compute|]. intros ctx r. by vm_compute. Qed.

(** Verifying the sample token: the decoded bytes are the identity and its
    MAC; afterwards the MAC in the buffer has given way to the MAC of the
    empty message, which [Sum] appended behind the identity, and the answer
    is the empty string. *)
Example getUser_overwrites_the_mac :
  getUser (New TestEnv.key) TestEnv.valid_token (World [] []) =
    Ok ""%string
       (World [TestEnv.identity ++ @HMAC.mac sha256_New TestEnv.key []] []) /\
  Base64.decode (list_ascii_of_string TestEnv.valid_token) =
    (TestEnv.identity ++ @HMAC.mac sha256_New TestEnv.key TestEnv.identity, false).
Proof. split; by vm_compute. Qed.

Example valid_token_is_spec_token :
  TestEnv.valid_token = Spec.token (New TestEnv.key) TestEnv.identity.
Proof. by vm_compute. Qed.

(** C1 (round trip) fails on the code.  Whatever the secret, the request and
    the state of the world, the token that CreateUser writes into its
    response, the base64url text of the MAC of the empty message, is turned
    down by getUser: verifying it returns the empty string, which is what
    getUser returns for an invalid token, and the auth middleware answers a
    request that carries it with 401, whatever the downstream handler. *)
Theorem issued_token_is_rejected c ctx rw r w :
  let tok := Base64.EncodeToString (@HMAC.mac sha256_New (secret c) []) in
  (exists w1, CreateUser c ctx rw r w = Ok (encode_res rw tok) w1) /\
  (forall w2, exists w3, getUser c tok w2 = Ok ""%string w3) /\
  (forall ctx' rw' w2, exists w3, forall inner,
     WrapC c inner ctx' rw' (TestEnv.bearer tok) w2 =
       Ok (Error rw' "Invalid authentication string" StatusUnauthorized) w3).
Proof.
  intros tok.
  destruct (CreateUser_run c ctx rw r w) as (w1 & Hrun & _).
  split; [by exists w1|]. split.
  - intros w2. apply getUser_invalid.
  - intros ctx' rw' w2.
    destruct (getUser_invalid c tok w2) as [w3 Hw3].
    exists w3. intros inner. unfold WrapC.
    rewrite bearer_header.
    destruct (TrimPrefix_Bearer tok) as [-> ->].
    cbn [negb]. by rewrite run_bind, Hw3.
Qed.

(** C2 (issue) fails on the code.  CreateUser takes no byte from the random
    source and puts no identity into the token: the token is the base64url
    text of the 32 bytes of HMAC-SHA256 of the empty message under the
    secret, the same for every user, and not a valid token in the words of
    the specification (it decodes to 32 bytes, not to 16 + 32). *)
Theorem CreateUser_token_holds_no_identity c ctx rw r w :
  exists w',
    CreateUser c ctx rw r w =
      Ok (encode_res rw (Base64.EncodeToString (@HMAC.mac sha256_New (secret c) []))) w' /\
    entropy w' = entropy w /\
    Base64.decode
      (Base64.removeNewlines
         (list_ascii_of_string
            (Base64.EncodeToString (@HMAC.mac sha256_New (secret c) [])))) =
      (@HMAC.mac sha256_New (secret c) [], false) /\
    length (@HMAC.mac sha256_New (secret c) []) = 32%nat /\
    ~ Spec.valid c (Base64.EncodeToString (@HMAC.mac sha256_New (secret c) [])).
Proof.
  destruct (CreateUser_run c ctx rw r w) as (w' & Hrun & Hent).
  exists w'. split; [exact Hrun|]. split; [exact Hent|].
  split; [apply Base64Facts.decode_EncodeToString|].
  split; [apply mac_length|].
  intros (raw & Hdec & Hlen & _).
  rewrite Base64Facts.decode_EncodeToString in Hdec.
  injection Hdec as Hraw. subst raw.
  rewrite sum256_length in Hlen. discriminate Hlen.
Qed.

(** C3 (verify) fails on the code in its accepting half.  A token that is
    valid in the words of the specification, the base64url text of a 16-byte
    identity followed by its HMAC-SHA256 under the secret, is turned down by
    getUser like every other string. *)
Theorem getUser_rejects_valid_token c identity w :
  length identity = idLen ->
  Spec.valid c (Spec.token c identity) /\
  exists w', getUser c (Spec.token c identity) w = Ok ""%string w'.
Proof.
  intros Hlen. split; [by apply spec_token_valid|apply getUser_invalid].
Qed.

Lemma getUser_rejects_valid_token_witness :
  Spec.valid (New TestEnv.key) (Spec.token (New TestEnv.key) TestEnv.identity) /\
  exists w', getUser (New TestEnv.key) (Spec.token (New TestEnv.key) TestEnv.identity)
               (World [] []) = Ok ""%string w'.
Proof.
  apply (getUser_rejects_valid_token (New TestEnv.key) TestEnv.identity (World [] [])).
  reflexivity.
Defined.

(** C4 (identity in the context) fails on the code.  A request that carries
    a token valid in the words of the specification is answered with 401,
    and the downstream handler plays no part in the answer: it is the same
    for every handler. *)
Theorem WrapC_rejects_valid_token c identity ctx rw w :
  length identity = idLen ->
  Spec.valid c (Spec.token c identity) /\
  exists w', forall inner,
    WrapC c inner ctx rw (TestEnv.bearer (Spec.token c identity)) w =
      Ok (Error rw "Invalid authentication string" StatusUnauthorized) w'.
Proof.
  intros Hlen. split; [by apply spec_token_valid|].
  destruct (getUser_invalid c (Spec.token c identity) w) as [w' Hw'].
  exists w'. intros inner. unfold WrapC.
  rewrite bearer_header.
  destruct (TrimPrefix_Bearer (Spec.token c identity)) as [-> ->].
  cbn [negb]. by rewrite run_bind, Hw'.
Qed.

Lemma WrapC_rejects_valid_token_witness :
  Spec.valid (New TestEnv.key) (Spec.token (New TestEnv.key) TestEnv.identity) /\
  exists w', forall inner,
    WrapC (New TestEnv.key) inner [] NewRecorder
          (TestEnv.bearer (Spec.token (New TestEnv.key) TestEnv.identity)) (World [] []) =
      Ok (Error NewRecorder "Invalid authentication string" StatusUnauthorized) w'.
Proof.
  apply (WrapC_rejects_valid_token (New TestEnv.key) TestEnv.identity [] NewRecorder
           (World [] [])).
  reflexivity.
Defined.

Lemma Error_fresh rw msg code :
  wroteHeader rw = false ->
  Code (Error rw msg code) = code /\
  RecBody (Error rw msg code) = (RecBody rw ++ msg ++ newline)%string.
Proof. intros Hrw. unfold Error, Write, WriteHeader, SetHeader. cbn. by rewrite Hrw. Qed.

(** C5: a request whose Authorization header is missing, or does not start
    with the exact prefix Bearer and a blank, or whose token fails
    verification (getUser returns the empty string), is answered with status
    401 and a short message followed by a line break, and the downstream
    handler is not invoked: the outcome is the same for every handler.  The
    response is taken not to have been started before the middleware runs. *)
Theorem WrapC_rejects_unauthenticated c ctx rw r w :
  wroteHeader rw = false ->
  (Header r !! "Authorization"%string = None \/
   HasPrefix (Header_Get (Header r) "Authorization") "Bearer " = false \/
   exists w1,
     getUser c (TrimPrefix (Header_Get (Header r) "Authorization") "Bearer ") w =
       Ok ""%string w1) ->
  exists msg w',
    (forall inner, WrapC c inner ctx rw r w = Ok (Error rw msg StatusUnauthorized) w') /\
    Code (Error rw msg StatusUnauthorized) = 401 /\
    RecBody (Error rw msg StatusUnauthorized) = (RecBody rw ++ msg ++ newline)%string /\
    msg <> ""%string.
Proof.
  intros Hrw Hcase.
  destruct (Error_fresh rw "You must provide a Bearer token in an Authorization header"
              StatusUnauthorized Hrw) as [Hc1 Hb1].
  destruct (Error_fresh rw "Invalid authentication string" StatusUnauthorized Hrw)
    as [Hc2 Hb2].
  unfold WrapC.
  destruct (HasPrefix (Header_Get (Header r) "Authorization") "Bearer ") eqn:Hpre.
  - destruct Hcase as [Hnone | [Hno | [w1 Hw1]]].
    + unfold Header_Get in Hpre. rewrite Hnone in Hpre. discriminate Hpre.
    + discriminate Hno.
    + exists "Invalid authentication string"%string, w1.
      split; [|done]. intros inner. cbn [negb]. by rewrite run_bind, Hw1.
  - exists "You must provide a Bearer token in an Authorization header"%string, w.
    split; [|done]. intros inner. reflexivity.
Qed.

Lemma WrapC_rejects_unauthenticated_witness :
  exists msg w',
    (forall inner,
       WrapC (New TestEnv.key) inner [] NewRecorder TestEnv.some_request (World [] []) =
         Ok (Error NewRecorder msg StatusUnauthorized) w') /\
    Code (Error NewRecorder msg StatusUnauthorized) = 401 /\
    RecBody (Error NewRecorder msg StatusUnauthorized) = (RecBody NewRecorder ++ msg ++ newline)%string /\
    msg <> ""%string.
Proof.
  apply (WrapC_rejects_unauthenticated (New TestEnv.key) [] NewRecorder TestEnv.some_request
           (World [] [])).
  - reflexivity.
  - left. reflexivity.
Defined.

(** The prefix is matched exactly: another capitalisation is no bearer
    token, and a token with one character changed is none either. *)
Example WrapC_lowercase_bearer :
  forall inner,
    WrapC (New TestEnv.key) inner [] NewRecorder
      (Build_Request "GET" emptyURL
         {["Authorization"%string := [("bearer " ++ TestEnv.valid_token)%string]]} None "")
      (World [] []) =
    Ok (Error NewRecorder "You must provide a Bearer token in an Authorization header"
          StatusUnauthorized) (World [] []).
Proof. intros inner. by vm_compute. Qed.

End AuthFacts.

(** ** Package client *)

Module ClientFacts.
Import Http Client.

Lemma order_of_singleton (m : string) order :
  order ≡ₚ elements ({[m]} : gset string) -> order = [m].
Proof.
  rewrite elements_singleton. intros Hp.
  symmetry in Hp. by apply Permutation_length_1_inv in Hp.
Qed.

Lemma order_of_GET_HEAD order :
  order ≡ₚ elements ({["GET"; "HEAD"]} : gset string) ->
  order = ["GET"; "HEAD"]%string \/ order = ["HEAD"; "GET"]%string.
Proof.
  assert (elements ({["GET"; "HEAD"]} : gset string) = ["GET"; "HEAD"]%string) as ->
    by (by vm_compute).
  intros Hp. symmetry in Hp. by apply Permutation_length_2_inv in Hp.
Qed.

Lemma order_of_GET_POST order :
  order ≡ₚ elements ({["GET"; "POST"]} : gset string) ->
  order = ["GET"; "POST"]%string \/ order = ["POST"; "GET"]%string.
Proof.
  assert (elements ({["GET"; "POST"]} : gset string) = ["GET"; "POST"]%string) as ->
    by (by vm_compute).
  intros Hp. symmetry in Hp. by apply Permutation_length_2_inv in Hp.
Qed.

Lemma order_of_empty order : order ≡ₚ elements (∅ : gset string) -> order = [].
Proof.
  rewrite elements_empty. intros Hp. symmetry in Hp. by apply Permutation_nil in Hp.
Qed.

Lemma pick_method_primaries all ms :
  ""%string ∉ ms ->
  forall method,
    pick_method all method ms =
      match List.filter primary ms with
      | [] => inr method
      | [m] =>
          if String.eqb method "" then inr m
          else inl (errors_Errorf "route defines multiple non-HEAD/OPTIONS methods: %s"
                                  [ArgStrings all])
      | _ :: _ :: _ =>
          inl (errors_Errorf "route defines multiple non-HEAD/OPTIONS methods: %s"
                             [ArgStrings all])
      end.
Proof.
  induction ms as [|m ms IH]; intros Hne method; [reflexivity|].
  apply not_elem_of_cons in Hne as [Hm Hms].
  cbn [pick_method List.filter]. fold (primary m).
  destruct (primary m).
  - destruct (String.eqb_spec method "") as [->|Hmethod]; cbn [negb].
    + rewrite (IH Hms m).
      destruct (List.filter primary ms) as [|m1 [|m2 l]]; [done| |done].
      by destruct (String.eqb_spec m "") as [->|].
    + by destruct (List.filter primary ms) as [|m1 [|m2 l]].
  - apply (IH Hms).
Qed.

(** Go leaves the order of [range] over a map open.  Two orders of the same
    method set resolve to the same method, or both to an error, as long as
    no method is the empty string. *)
Lemma resolve_method_order l1 l2 :
  l1 ≡ₚ l2 -> ""%string ∉ l1 ->
  match resolve_method l1, resolve_method l2 with
  | inr m1, inr m2 => m1 = m2
  | inl _, inl _ => True
  | _, _ => False
  end.
Proof.
  intros Hp Hne.
  assert (""%string ∉ l2) as Hne2 by (by rewrite <- Hp).
  pose proof (Permutation_length Hp) as Hlen.
  unfold resolve_method. rewrite <- Hlen.
  destruct l1 as [|a [|b l1]].
  - done.
  - apply Permutation_length_1_inv in Hp as ->. done.
  - cbn [length Nat.eqb].
    rewrite !pick_method_primaries by done.
    assert (List.filter primary (a :: b :: l1) ≡ₚ List.filter primary l2) as Hf.
    { clear -Hp. induction Hp; cbn [List.filter]; repeat case_match; eauto using Permutation. }
    destruct (List.filter primary (a :: b :: l1)) as [|m1 [|m1' f1]].
    + apply Permutation_nil in Hf as ->. done.
    + apply Permutation_length_1_inv in Hf as ->. done.
    + destruct (List.filter primary l2) as [|m2 [|m2' f2]]; [| |done].
      * symmetry in Hf. by apply Permutation_nil in Hf.
      * apply Permutation_length in Hf. discriminate Hf.
Qed.

(** With the empty string among the methods the order shows: the loop takes
    an empty [method] for none found yet. *)
Example empty_method_depends_on_order :
  resolve_method [""; "GET"]%string = inr "GET"%string /\
  resolve_method ["GET"; ""]%string =
    inl (errors_Errorf "route defines multiple non-HEAD/OPTIONS methods: %s"
                       [ArgStrings ["GET"; ""]%string]).
Proof. split; reflexivity. Qed.

Section Library.

Context {W J : Type}.
Variable url_Parse : string -> error + URL.
Variable URL_ResolveReference : URL -> URL -> URL.
Variable URL_String : URL -> string.
Variable Values_Encode : gmap string (list string) -> string.
Variable json_Decode : BodyReader -> iface -> (error * option J) + J.
Variable usererrors_UnmarshalJSON : list byte -> error + UserError.

Local Abbreviation NewRequest :=
  (@Client.NewRequest W url_Parse URL_ResolveReference URL_String Values_Encode).
Local Abbreviation Do := (@Client.Do W J json_Decode usererrors_UnmarshalJSON).

(** What [http.NewRequest] returns when it returns a request. *)
Lemma http_NewRequest_inr (method urlStr : string) (body : option string) (req : Request) :
  Client.http_NewRequest url_Parse method urlStr body = inr req ->
  validMethod (if String.eqb method "" then "GET"%string else method) = true /\
  exists u, url_Parse urlStr = inr u /\
    req = Build_Request (if String.eqb method "" then "GET"%string else method)
                        u ∅ body (Host u).
Proof.
  unfold http_NewRequest.
  destruct (validMethod _); [|discriminate].
  destruct (url_Parse urlStr) as [e|u]; [discriminate|].
  intros [= <-]. split; [done|]. by exists u.
Qed.

(** What it returns for a method that is a token. *)
Lemma http_NewRequest_token (method urlStr : string) (body : option string) :
  validMethod method = true ->
  Client.http_NewRequest url_Parse method urlStr body =
    match url_Parse urlStr with
    | inl e => inl e
    | inr u => inr (Build_Request method u ∅ body (Host u))
    end.
Proof.
  intros Hv. unfold http_NewRequest.
  destruct (String.eqb_spec method "") as [->|_]; [discriminate Hv|].
  by rewrite Hv.
Qed.

Section Routes.

Context {R V : Type} `{Route R} `{Vars V}.

(** C8, as amended.  The method is resolved inside NewRequest, each time a
    request is built and after the path has been expanded and parsed,
    whatever order the method set is ranged over in: on GET alone and on GET
    with HEAD it is GET, and GET is the method of the request; on GET with
    POST NewRequest returns the error about multiple non-HEAD/OPTIONS
    methods, and on the empty set the error about no methods. *)
Theorem NewRequest_resolves_method
    (order : list string) (c : Client W) (rt : R) (rtVars : option V)
    (form : option (gmap string (list string))) (path : string) (rel : URL) :
  order ≡ₚ elements (HTTPMethods rt) ->
  URLPath rt (vars_or_empty rtVars) = inr path ->
  url_Parse path = inr rel ->
  (HTTPMethods rt = {["GET"%string]} \/ HTTPMethods rt = {["GET"; "HEAD"]}%string ->
     resolve_method order = inr "GET"%string /\
     forall req, NewRequest order c rt rtVars form = inr req -> Method req = "GET"%string) /\
  (HTTPMethods rt = {["GET"; "POST"]}%string ->
     NewRequest order c rt rtVars form =
       inl (errors_Errorf "route defines multiple non-HEAD/OPTIONS methods: %s"
                          [ArgStrings order])) /\
  (HTTPMethods rt = ∅ ->
     NewRequest order c rt rtVars form =
       inl (errors_New "route does not define any HTTPMethods")).
Proof.
  intros Hperm Hpath Hrel.
  unfold Client.NewRequest. rewrite Hpath, Hrel.
  split; [|split].
  - intros Hm.
    assert (resolve_method order = inr "GET"%string) as Hres.
    { destruct Hm as [Hm|Hm]; rewrite Hm in Hperm.
      - by rewrite (order_of_singleton _ _ Hperm).
      - by destruct (order_of_GET_HEAD _ Hperm) as [-> | ->]. }
    split; [exact Hres|].
    intros req. rewrite Hres.
    destruct form as [f|];
      [change (String.eqb "GET" "GET" || String.eqb "GET" "HEAD") with true|];
      cbv iota beta;
      (destruct (http_NewRequest _ _ _ _) as [e|r] eqn:Hn; [discriminate|]);
      apply http_NewRequest_inr in Hn as (_ & u & _ & ->);
      intros Hreq; injection Hreq as Hreq; subst req;
      by destruct (negb (String.eqb (auth c) "")).
  - intros Hm. rewrite Hm in Hperm.
    by destruct (order_of_GET_POST _ Hperm) as [-> | ->].
  - intros Hm. rewrite Hm in Hperm.
    by rewrite (order_of_empty _ Hperm).
Qed.

(** C9, as amended.  With a form, a request whose resolved method is GET or
    HEAD carries the encoded form as the query of its URL, has no body and
    no Content-Type header; with any other method the encoded form is the
    body, the Content-Type header is application/x-www-form-urlencoded, and
    the URL is the one resolved from the base URL and the path of the route,
    query included: the form adds nothing to it.  The method of the request
    is the resolved one, and GET when the resolved one is empty: the form is
    then in the body of a GET request. *)
Theorem NewRequest_places_form
    (order : list string) (c : Client W) (rt : R) (rtVars : option V)
    (f : gmap string (list string)) (req : Request) :
  order ≡ₚ elements (HTTPMethods rt) ->
  NewRequest order c rt rtVars (Some f) = inr req ->
  exists path rel method,
    URLPath rt (vars_or_empty rtVars) = inr path /\
    url_Parse path = inr rel /\
    resolve_method order = inr method /\
    Method req = (if String.eqb method "" then "GET"%string else method) /\
    if String.eqb method "GET" || String.eqb method "HEAD" then
      url_Parse (URL_String (with_RawQuery (URL_ResolveReference (baseURL c) rel)
                                           (Values_Encode f))) = inr (ReqURL req) /\
      Body req = None /\
      Header req !! "Content-Type"%string = None
    else
      url_Parse (URL_String (URL_ResolveReference (baseURL c) rel)) = inr (ReqURL req) /\
      Body req = Some (Values_Encode f) /\
      Header req !! "Content-Type"%string = Some ["application/x-www-form-urlencoded"%string].
Proof.
  intros _. unfold Client.NewRequest.
  destruct (URLPath rt _) as [e|path]; [discriminate|].
  destruct (url_Parse path) as [e|rel] eqn:Hrel; [discriminate|].
  destruct (resolve_method order) as [e|method]; [discriminate|].
  intros Hreq. exists path, rel, method.
  split; [done|]. split; [done|]. split; [done|].
  destruct (String.eqb method "GET" || String.eqb method "HEAD");
    cbv iota beta in Hreq;
    (destruct (http_NewRequest _ _ _ _) as [e|r] eqn:Hn; [discriminate|]);
    apply http_NewRequest_inr in Hn as (_ & u & Hu & ->);
    destruct (negb (String.eqb (auth c) "")); injection Hreq as <-; cbn;
    rewrite ?lookup_insert_eq, ?lookup_insert_ne, ?lookup_empty by done; done.
Qed.

End Routes.

(** C6, as amended.  A response with status 418 is an error response like
    every status of 400 and above: the error is the decoded user error when
    the body decodes, the annotated parse failure when it does not (and the
    annotated read failure when the body cannot be read), never the
    unexpected-status error.  That error is what a status from 300 to 399 or
    below 199 yields, and it carries the status. *)
Theorem Do_status_418
    (c : Client W) (req : Request) (v : option iface) (w w' : W) (resp : Response) :
  v = None \/ rv_Kind v = Ptr ->
  do c req w = (inr resp, w') ->
  (StatusCode resp = 418 ->
     err (Do c req v w).1 <>
       Some (errors_Errorf "unexpected status code %d" [ArgInt 418]) /\
     err (Do c req v w).1 =
       Some (match ioutil_ReadAll (RespBody resp) with
             | inl e => errors_Annotate e "unable to read response body"
             | inr body =>
                 match usererrors_UnmarshalJSON body with
                 | inl e => errors_Annotate e "unable to parse error body"
                 | inr uerr => UserErr uerr
                 end
             end)) /\
  (299 < StatusCode resp <= 399 \/ StatusCode resp < 199 ->
     Do c req v w =
       (Build_DoResult (Some (Close resp))
          (Some (errors_Errorf "unexpected status code %d" [ArgInt (StatusCode resp)]))
          None, w')).
Proof.
  intros Hv Hdo. unfold Client.Do. rewrite Hdo.
  assert (negb (bool_decide (v = None) || is_Ptr (rv_Kind v)) = false) as ->.
  { destruct Hv as [-> | ->]; [done|]. by rewrite orb_true_r. }
  split.
  - intros ->. cbn [Z.gtb Z.compare Pos.compare Pos.compare_cont].
    destruct (ioutil_ReadAll (RespBody resp)) as [e|body]; [done|].
    by destruct (usererrors_UnmarshalJSON body).
  - intros Hcode.
    destruct (Z.gtb_spec (StatusCode resp) 399); [lia|].
    destruct (Z.gtb_spec (StatusCode resp) 299), (Z.ltb_spec (StatusCode resp) 199);
      try lia; done.
Qed.

(** C7: for a response with status 400 or above whose body is read in full,
    [Do] hands that body to the decoder of application errors; if it
    decodes, the error returned is the decoded user error itself (so for
    status 404 and a body that decodes to the kind not_found, a user error
    of kind not_found), and if it does not, the error is the decoder's,
    annotated as an unparseable error body, which is no user error. *)
Theorem Do_error_status
    (c : Client W) (req : Request) (v : option iface) (w w' : W) (resp : Response)
    (body : list byte) :
  v = None \/ rv_Kind v = Ptr ->
  do c req w = (inr resp, w') ->
  400 <= StatusCode resp ->
  ioutil_ReadAll (RespBody resp) = inr body ->
  body = content (RespBody resp) /\
  (forall uerr, usererrors_UnmarshalJSON body = inr uerr ->
     Do c req v w = (Build_DoResult (Some (Close resp)) (Some (UserErr uerr)) None, w') /\
     (StatusCode resp = 404 -> kind uerr = "not_found"%string ->
      exists d, err (Do c req v w).1 = Some (UserErr d) /\ kind d = "not_found"%string)) /\
  (forall e, usererrors_UnmarshalJSON body = inl e ->
     Do c req v w =
       (Build_DoResult (Some (Close resp))
          (Some (errors_Annotate e "unable to parse error body")) None, w') /\
     forall d, errors_Annotate e "unable to parse error body" <> UserErr d).
Proof.
  intros Hv Hdo Hcode Hread. unfold Client.Do. rewrite Hdo.
  assert (negb (bool_decide (v = None) || is_Ptr (rv_Kind v)) = false) as ->.
  { destruct Hv as [-> | ->]; [done|]. by rewrite orb_true_r. }
  destruct (Z.gtb_spec (StatusCode resp) 399); [|lia].
  rewrite Hread. split; [|split].
  - unfold ioutil_ReadAll in Hread. destruct (failure (RespBody resp)); congruence.
  - intros uerr ->. split; [done|]. intros _ Hk. by exists uerr.
  - intros e ->. split; [done|]. discriminate.
Qed.

(** C10: when the destination is neither nil nor a pointer, [Do] returns the
    error about it at once.  The transport is not called: the outcome is the
    same for every transport, and what the transport acts on is returned as
    it was. *)
Theorem Do_rejects_non_pointer (c : Client W) (req : Request) (i : iface) (w : W) :
  ikind i <> Ptr ->
  Do c req (Some i) w =
    (Build_DoResult None
       (Some (errors_Errorf "value must be a pointer or nil not %s" [ArgString (itype i)]))
       None, w) /\
  forall transport,
    Do {| baseURL := baseURL c; do := transport; auth := auth c |} req (Some i) w =
      (Build_DoResult None
         (Some (errors_Errorf "value must be a pointer or nil not %s" [ArgString (itype i)]))
         None, w).
Proof.
  intros Hk.
  assert (forall d : Client W,
            Do d req (Some i) w =
              (Build_DoResult None
                 (Some (errors_Errorf "value must be a pointer or nil not %s"
                          [ArgString (itype i)]))
                 None, w)) as Hall.
  { intros d. unfold Client.Do.
    assert (is_Ptr (rv_Kind (Some i)) = false) as ->.
    { cbn. by destruct (ikind i). }
    by rewrite bool_decide_eq_false_2. }
  split; [apply Hall|]. intros transport. apply Hall.
Qed.

End Library.

End ClientFacts.

(** ** The client in the concrete environment *)

Module ClientCases.
Import Http Client TestEnv.

Lemma NewRequest_resolves_method_witness :
  (resolve_method ["GET"%string] = inr "GET"%string /\
   forall req, NewRequest ["GET"%string] (client (reply 200 [])) get_animals None None
               = inr req -> Method req = "GET"%string) /\
  (resolve_method ["HEAD"; "GET"]%string = inr "GET"%string /\
   forall req, NewRequest ["HEAD"; "GET"]%string (client (reply 200 [])) get_and_head
                 None (Some form_ab)
               = inr req -> Method req = "GET"%string) /\
  NewRequest ["POST"; "GET"]%string (client (reply 200 [])) two_primaries None None =
    inl (errors_Errorf "route defines multiple non-HEAD/OPTIONS methods: %s"
                       [ArgStrings ["POST"; "GET"]%string]) /\
  NewRequest [] (client (reply 200 [])) no_methods None None =
    inl (errors_New "route does not define any HTTPMethods").
Proof.
  split; [|split; [|split]].
  - apply (ClientFacts.NewRequest_resolves_method
             url_Parse URL_ResolveReference URL_String Values_Encode
             ["GET"%string] (client (reply 200 [])) get_animals None None
             "/animals" (Build_URL "" "" None "" "/animals" "" "")).
    + cbn [HTTPMethods route_Route methods get_animals].
      rewrite elements_singleton. reflexivity.
    + reflexivity.
    + reflexivity.
    + left. reflexivity.
  - apply (ClientFacts.NewRequest_resolves_method
             url_Parse URL_ResolveReference URL_String Values_Encode
             ["HEAD"; "GET"]%string (client (reply 200 [])) get_and_head None (Some form_ab)
             "/animals" (Build_URL "" "" None "" "/animals" "" "")).
    + replace (elements (HTTPMethods get_and_head)) with ["GET"; "HEAD"]%string
        by (by vm_compute).
      apply perm_swap.
    + reflexivity.
    + reflexivity.
    + right. reflexivity.
  - apply (ClientFacts.NewRequest_resolves_method
             url_Parse URL_ResolveReference URL_String Values_Encode
             ["POST"; "GET"]%string (client (reply 200 [])) two_primaries None None
             "/moods" (Build_URL "" "" None "" "/moods" "" "")).
    + replace (elements (HTTPMethods two_primaries)) with ["GET"; "POST"]%string
        by (by vm_compute).
      apply perm_swap.
    + reflexivity.
    + reflexivity.
    + reflexivity.
  - apply (ClientFacts.NewRequest_resolves_method
             url_Parse URL_ResolveReference URL_String Values_Encode
             [] (client (reply 200 [])) no_methods None None
             "/moods" (Build_URL "" "" None "" "/moods" "" "")).
    + cbn [HTTPMethods route_Route methods no_methods].
      rewrite elements_empty. reflexivity.
    + reflexivity.
    + reflexivity.
    + reflexivity.
Defined.

(** The requests of the two routes with GET: with HEAD beside GET the form
    is in the query, as for GET alone. *)
Example routes_with_GET_build_GET :
  NewRequest ["GET"%string] (client (reply 200 [])) get_animals None None =
    inr (Build_Request "GET" (Build_URL "" "" None "" "/animals" "" "") ∅ None "") /\
  NewRequest ["HEAD"; "GET"]%string (client (reply 200 [])) get_and_head None (Some form_ab) =
    inr (Build_Request "GET" (Build_URL "" "" None "" "/animals" "a=b" "") ∅ None "").
Proof. split; by vm_compute. Qed.

(** C8 as stated does not hold: routes with two primary methods and with no
    method at all are values like any other, and the errors about them come
    from NewRequest, when a request is built; for a route whose path cannot
    be expanded either, the error about the path comes first. *)
Lemma invalid_routes_fail_per_request :
  HTTPMethods two_primaries = {["GET"; "POST"]}%string /\
  HTTPMethods no_methods = ∅ /\
  NewRequest ["GET"; "POST"]%string (client (reply 200 [])) two_primaries None None =
    inl (errors_Errorf "route defines multiple non-HEAD/OPTIONS methods: %s"
                       [ArgStrings ["GET"; "POST"]%string]) /\
  NewRequest [] (client (reply 200 [])) no_methods None None =
    inl (errors_New "route does not define any HTTPMethods") /\
  NewRequest [] (client (reply 200 [])) unroutable None None =
    inl (errors_Annotate (LibError "mux" "missing variable")
                         "unable to generate request path").
Proof. repeat split; by vm_compute. Qed.

Lemma NewRequest_places_form_witness :
  exists path rel method,
    URLPath get_animals (vars_or_empty (V:=gmap string string) None) = inr path /\
    url_Parse path = inr rel /\
    resolve_method ["GET"%string] = inr method /\
    Method (Build_Request "GET" (Build_URL "" "" None "" "/animals" "a=b" "") ∅ None "")
      = (if String.eqb method "" then "GET"%string else method) /\
    if String.eqb method "GET" || String.eqb method "HEAD" then
      url_Parse (URL_String (with_RawQuery
                               (URL_ResolveReference (baseURL (client (reply 200 []))) rel)
                               (Values_Encode form_ab))) =
        inr (ReqURL (Build_Request "GET" (Build_URL "" "" None "" "/animals" "a=b" "")
                       ∅ None "")) /\
      Body (Build_Request "GET" (Build_URL "" "" None "" "/animals" "a=b" "") ∅ None "")
        = None /\
      Header (Build_Request "GET" (Build_URL "" "" None "" "/animals" "a=b" "") ∅ None "")
        !! "Content-Type"%string = None
    else
      url_Parse (URL_String (URL_ResolveReference (baseURL (client (reply 200 []))) rel)) =
        inr (ReqURL (Build_Request "GET" (Build_URL "" "" None "" "/animals" "a=b" "")
                       ∅ None "")) /\
      Body (Build_Request "GET" (Build_URL "" "" None "" "/animals" "a=b" "") ∅ None "")
        = Some (Values_Encode form_ab) /\
      Header (Build_Request "GET" (Build_URL "" "" None "" "/animals" "a=b" "") ∅ None "")
        !! "Content-Type"%string = Some ["application/x-www-form-urlencoded"%string].
Proof.
  apply (ClientFacts.NewRequest_places_form
           url_Parse URL_ResolveReference URL_String Values_Encode
           ["GET"%string] (client (reply 200 [])) get_animals None form_ab).
  - cbn [HTTPMethods route_Route methods get_animals].
    rewrite elements_singleton. reflexivity.
  - by vm_compute.
Defined.

(** C9 as stated does not hold: a POST request for a route whose path
    carries a query has the form in its body and that query in its URL. *)
Lemma post_keeps_the_query_of_the_path :
  exists req,
    NewRequest ["POST"%string] (client (reply 200 [])) search None (Some form_ab) = inr req /\
    Method req = "POST"%string /\
    Body req = Some "a=b"%string /\
    RawQuery (ReqURL req) = "q=1"%string /\
    RawQuery (ReqURL req) <> ""%string.
Proof.
  eexists. split; [by vm_compute|].
  repeat split. discriminate.
Qed.

(** C6 as stated does not hold: the error for a response with status 418 is
    the annotated parse failure of its body, not the unexpected-status
    error. *)
Lemma teapot_is_no_unexpected_status :
  err (Do (client teapot) some_request None []).1 =
    Some (errors_Annotate (LibError "json" "not an error object")
                          "unable to parse error body") /\
  err (Do (client teapot) some_request None []).1 <>
    Some (errors_Errorf "unexpected status code %d" [ArgInt 418]).
Proof. split; [by vm_compute|]. vm_compute. discriminate. Qed.

Lemma Do_status_418_witness :
  (StatusCode teapot = 418 ->
     err (Do (client teapot) some_request None []).1 <>
       Some (errors_Errorf "unexpected status code %d" [ArgInt 418]) /\
     err (Do (client teapot) some_request None []).1 =
       Some (match ioutil_ReadAll (RespBody teapot) with
             | inl e => errors_Annotate e "unable to read response body"
             | inr body =>
                 match usererrors_UnmarshalJSON body with
                 | inl e => errors_Annotate e "unable to parse error body"
                 | inr uerr => UserErr uerr
                 end
             end)) /\
  (299 < StatusCode teapot <= 399 \/ StatusCode teapot < 199 ->
     Do (client teapot) some_request None [] =
       (Build_DoResult (Some (Close teapot))
          (Some (errors_Errorf "unexpected status code %d" [ArgInt (StatusCode teapot)]))
          None, [some_request])).
Proof.
  apply (ClientFacts.Do_status_418 json_Decode usererrors_UnmarshalJSON
           (client teapot) some_request None [] [some_request] teapot).
  - left. reflexivity.
  - reflexivity.
Defined.

Lemma Do_error_status_witness :
  error_body "not_found" "no such user" = content (RespBody not_found) /\
  (forall uerr, usererrors_UnmarshalJSON (error_body "not_found" "no such user") = inr uerr ->
     Do (client not_found) some_request None [] =
       (Build_DoResult (Some (Close not_found)) (Some (UserErr uerr)) None, [some_request]) /\
     (StatusCode not_found = 404 -> kind uerr = "not_found"%string ->
      exists d, err (Do (client not_found) some_request None []).1 = Some (UserErr d) /\
                kind d = "not_found"%string)) /\
  (forall e, usererrors_UnmarshalJSON (error_body "not_found" "no such user") = inl e ->
     Do (client not_found) some_request None [] =
       (Build_DoResult (Some (Close not_found))
          (Some (errors_Annotate e "unable to parse error body")) None, [some_request]) /\
     forall d, errors_Annotate e "unable to parse error body" <> UserErr d).
Proof.
  apply (ClientFacts.Do_error_status json_Decode usererrors_UnmarshalJSON
           (client not_found) some_request None [] [some_request] not_found
           (error_body "not_found" "no such user")).
  - left. reflexivity.
  - reflexivity.
  - vm_compute. discriminate.
  - reflexivity.
Defined.

(** The body of the sample decodes, to the kind it was written with. *)
Example not_found_decodes :
  usererrors_UnmarshalJSON (error_body "not_found" "no such user") =
    inr {| kind := "not_found"; message := "no such user" |} /\
  err (Do (client not_found) some_request None []).1 =
    Some (UserErr {| kind := "not_found"; message := "no such user" |}).
Proof. split; by vm_compute. Qed.

Lemma Do_rejects_non_pointer_witness :
  Do (client teapot) some_request (Some user_value) [] =
    (Build_DoResult None
       (Some (errors_Errorf "value must be a pointer or nil not %s"
                [ArgString (itype user_value)]))
       None, []) /\
  forall transport,
    Do {| baseURL := baseURL (client teapot); do := transport; auth := auth (client teapot) |}
       some_request (Some user_value) [] =
      (Build_DoResult None
         (Some (errors_Errorf "value must be a pointer or nil not %s"
                  [ArgString (itype user_value)]))
         None, []).
Proof.
  apply (ClientFacts.Do_rejects_non_pointer json_Decode usererrors_UnmarshalJSON
           (client teapot) some_request user_value []).
  discriminate.
Defined.

(** The recording transport is left with an empty record. *)
Example non_pointer_sends_nothing :
  (Do (client teapot) some_request (Some user_value) []).2 = [] /\
  (Do (client teapot) some_request None []).2 = [some_request].
Proof. split; by vm_compute. Qed.

End ClientCases.

(** ** Package auth: what every call comes to *)

Module AuthMore.
Import Go Http Auth GoFacts AuthRoutes.

(** The run of [getUser], with the world it leaves. *)
Lemma getUser_run c auth w :
  exists buf, getUser c auth w = Ok ""%string (World (heap w ++ [buf]) (entropy w)).
Proof.
  unfold getUser.
  rewrite run_bind, base64_DecodeString_run.
  set (src := Base64.removeNewlines _).
  pose proof (Base64Facts.decode_length src) as Hlen.
  destruct (Base64.decode src) as [out err]. cbn [fst snd] in *.
  set (D := Base64.DecodedLen (length src)) in *.
  destruct err; [eexists; reflexivity|].
  cbn [len].
  change (idLen + hmac_Size (hmac_New sha256_New (secret c)))%nat with 48%nat.
  destruct (Nat.eqb_spec (length out) 48) as [H48|]; [|eexists; reflexivity].
  cbn [negb]. rewrite H48 in *.
  rewrite run_bind, reslice_run by (cbn [cap]; unfold idLen; lia).
  rewrite run_bind, reslice_run by (cbn [cap]; unfold idLen; lia).
  cbn [arr off cap].
  rewrite run_bind. unfold hmac_Sum.
  rewrite append_in_place.
  2:{ cbn [len cap hfn hmac_New]. rewrite mac_length. unfold idLen. lia. }
  cbn [arr off len cap heap entropy].
  rewrite array_at_fresh, insert_fresh.
  rewrite run_bind. unfold hmac_Equal.
  rewrite run_bind. unfold load at 1. rewrite run_bind. unfold load at 1.
  cbn [arr off len heap]. rewrite array_at_fresh.
  rewrite ConstantTimeCompare_lengths; [eexists; reflexivity|].
  set (mac := HMAC.mac _ _).
  assert (length mac = 32%nat) as Hmac by apply mac_length.
  assert (length (splice (repeat x00 D) 0 out) = D) as HD.
  { rewrite splice_length; rewrite repeat_length; lia. }
  rewrite !length_take, !length_drop, splice_length; rewrite ?HD; unfold idLen in *; lia.
Qed.

(** X1: getUser returns the empty string for every secret and every string,
    without a panic; it takes nothing from the random source and leaves the
    arrays of the heap as they are, adding the one buffer it decodes
    into. *)
Theorem getUser_never_accepts c auth w :
  exists buf, getUser c auth w = Ok ""%string (World (heap w ++ [buf]) (entropy w)).
Proof. apply getUser_run. Qed.

(** X2: the middleware answers every request with 401 and never runs the
    handler it wraps.  Without the Bearer prefix the message asks for a
    token and nothing else happens; with it the message calls the
    authentication string invalid, after the token was decoded into a
    buffer of its own. *)
Theorem WrapC_always_unauthorized c inner ctx rw r w :
  exists buf,
    WrapC c inner ctx rw r w =
      if HasPrefix (Header_Get (Header r) "Authorization") "Bearer "
      then Ok (Error rw "Invalid authentication string" StatusUnauthorized)
              (World (heap w ++ [buf]) (entropy w))
      else Ok (Error rw "You must provide a Bearer token in an Authorization header"
                 StatusUnauthorized) w.
Proof.
  unfold WrapC.
  destruct (HasPrefix (Header_Get (Header r) "Authorization") "Bearer ").
  - destruct (getUser_run c
                (TrimPrefix (Header_Get (Header r) "Authorization") "Bearer ") w)
      as [buf Hbuf].
    exists buf. cbn [negb]. by rewrite run_bind, Hbuf.
  - by exists [].
Qed.

(** X3: the existence check never finds a user.  With the id variable bound
    it answers 404 with the text of http.NotFound, whatever the id and the
    secret, and never 204; without the variable it panics and writes
    nothing. *)
Theorem GetUser_never_finds (mux_GetURLVar : Context -> string -> option string)
    c ctx rw r w :
  match mux_GetURLVar ctx "id" with
  | Some id =>
      exists buf,
        GetUser mux_GetURLVar c ctx rw r w =
          Ok (Error rw "404 page not found" StatusNotFound)
             (World (heap w ++ [buf]) (entropy w))
  | None =>
      GetUser mux_GetURLVar c ctx rw r w =
        Panic (errors_New "GetUser called without an `id` URL Var")
  end.
Proof.
  unfold GetUser.
  destruct (mux_GetURLVar ctx "id") as [id|]; [|reflexivity].
  destruct (getUser_run c id w) as [buf Hbuf].
  exists buf. by rewrite run_bind, Hbuf.
Qed.

End AuthMore.

(** ** Package client: method sets, headers, outcomes *)

Module ClientMore.
Import Http Client ClientFacts.

(** The loop of [resolve_method], read as a filter. *)
Lemma resolve_method_filter (ms : list string) :
  ""%string ∉ ms ->
  resolve_method ms =
    match ms with
    | [] => inl (errors_New "route does not define any HTTPMethods")
    | [m] => inr m
    | _ :: _ :: _ =>
        match List.filter primary ms with
        | [] => inr ""%string
        | [m] => inr m
        | _ :: _ :: _ =>
            inl (errors_Errorf "route defines multiple non-HEAD/OPTIONS methods: %s"
                               [ArgStrings ms])
        end
    end.
Proof.
  intros Hne. destruct ms as [|a [|b ms]]; [done..|].
  unfold resolve_method. cbn [length Nat.eqb].
  rewrite pick_method_primaries by done.
  by destruct (List.filter primary (a :: b :: ms)) as [|m1 [|m2 l]].
Qed.

(** X4: method resolution without the loop.  For a method set without the
    empty string: no method is an error; a single method is taken as it is,
    HEAD and OPTIONS too; among several, the one that is neither HEAD nor
    OPTIONS is taken, two of that kind are an error, and none of that kind
    leaves the method empty. *)
Theorem resolve_method_by_primaries (ms : list string) :
  ""%string ∉ ms ->
  resolve_method ms =
    match ms with
    | [] => inl (errors_New "route does not define any HTTPMethods")
    | [m] => inr m
    | _ :: _ :: _ =>
        match List.filter primary ms with
        | [] => inr ""%string
        | [m] => inr m
        | _ :: _ :: _ =>
            inl (errors_Errorf "route defines multiple non-HEAD/OPTIONS methods: %s"
                               [ArgStrings ms])
        end
    end.
Proof. apply resolve_method_filter. Qed.

Lemma resolve_method_by_primaries_witness :
  resolve_method ["HEAD"; "GET"; "OPTIONS"]%string =
    match List.filter primary ["HEAD"; "GET"; "OPTIONS"]%string with
    | [] => inr ""%string
    | [m] => inr m
    | _ :: _ :: _ =>
        inl (errors_Errorf "route defines multiple non-HEAD/OPTIONS methods: %s"
                           [ArgStrings ["HEAD"; "GET"; "OPTIONS"]%string])
    end.
Proof.
  apply (resolve_method_by_primaries ["HEAD"; "GET"; "OPTIONS"]%string).
  intros Hin. repeat (apply elem_of_cons in Hin as [Hin|Hin]; [discriminate Hin|]).
  by apply elem_of_nil in Hin.
Defined.

(** X5: the order in which the method set is ranged over does not show in
    the outcome: two orders of a set without the empty string resolve to
    the same method, or both fail. *)
Theorem resolve_method_any_order (l1 l2 : list string) :
  l1 ≡ₚ l2 -> ""%string ∉ l1 ->
  match resolve_method l1, resolve_method l2 with
  | inr m1, inr m2 => m1 = m2
  | inl _, inl _ => True
  | _, _ => False
  end.
Proof.
  intros Hp Hne.
  assert (""%string ∉ l2) as Hne2 by (by rewrite <- Hp).
  assert (List.filter primary l1 ≡ₚ List.filter primary l2) as Hf.
  { clear -Hp. induction Hp; cbn [List.filter]; repeat case_match; eauto using Permutation. }
  pose proof (Permutation_length Hp) as Hlen.
  pose proof (Permutation_length Hf) as Hflen.
  rewrite !resolve_method_filter by done.
  destruct l1 as [|a1 [|b1 l1]], l2 as [|a2 [|b2 l2]]; try discriminate Hlen; try done.
  - by apply Permutation_length_1_inv in Hp as [= ->].
  - destruct (List.filter primary (a1 :: b1 :: l1)) as [|m1 [|m1' f1]],
             (List.filter primary (a2 :: b2 :: l2)) as [|m2 [|m2' f2]];
      try discriminate Hflen; try done.
    by apply Permutation_length_1_inv in Hf as [= ->].
Qed.

Lemma resolve_method_any_order_witness :
  match resolve_method ["GET"; "HEAD"]%string, resolve_method ["HEAD"; "GET"]%string with
  | inr m1, inr m2 => m1 = m2
  | inl _, inl _ => True
  | _, _ => False
  end.
Proof.
  apply (resolve_method_any_order ["GET"; "HEAD"]%string ["HEAD"; "GET"]%string).
  - apply perm_swap.
  - intros Hin. repeat (apply elem_of_cons in Hin as [Hin|Hin]; [discriminate Hin|]).
    by apply elem_of_nil in Hin.
Defined.

Section Library.

Context {W J : Type}.
Variable url_Parse : string -> error + URL.
Variable URL_ResolveReference : URL -> URL -> URL.
Variable URL_String : URL -> string.
Variable Values_Encode : gmap string (list string) -> string.
Variable json_Decode : BodyReader -> iface -> (error * option J) + J.
Variable usererrors_UnmarshalJSON : list byte -> error + UserError.

Local Abbreviation NewRequest :=
  (@Client.NewRequest W url_Parse URL_ResolveReference URL_String Values_Encode).
Local Abbreviation Do := (@Client.Do W J json_Decode usererrors_UnmarshalJSON).
Local Abbreviation execute :=
  (@Client.execute W url_Parse URL_ResolveReference URL_String Values_Encode J json_Decode
                   usererrors_UnmarshalJSON).

Section Routes.

Context {R V : Type} `{Route R} `{Vars V}.

(** X6: a request carries the header Authorization exactly when the client
    holds a non-empty token, and then with the single value Bearer, a blank
    and the token. *)
Theorem NewRequest_authorization
    (order : list string) (c : Client W) (rt : R) (rtVars : option V)
    (form : option (gmap string (list string))) (req : Request) :
  NewRequest order c rt rtVars form = inr req ->
  Header req !! "Authorization"%string =
    if String.eqb (auth c) "" then None else Some [("Bearer " ++ auth c)%string].
Proof.
  unfold Client.NewRequest.
  destruct (URLPath rt _) as [e|path]; [discriminate|].
  destruct (url_Parse path) as [e|rel]; [discriminate|].
  destruct (resolve_method order) as [e|method]; [discriminate|].
  destruct form as [f|]; [destruct (String.eqb method "GET" || String.eqb method "HEAD")|];
    cbv iota beta;
    (destruct (http_NewRequest _ _ _ _) as [e|r] eqn:Hn; [discriminate|]);
    apply http_NewRequest_inr in Hn as (_ & u & _ & ->);
    intros Hreq; injection Hreq as <-;
    destruct (String.eqb (auth c) ""); cbn;
    unfold Header_Add, Header_Set;
    rewrite ?lookup_insert_ne, ?lookup_insert_eq, ?lookup_empty by done; done.
Qed.

(** X7: setting a token changes the request that is built by the header
    Authorization and by nothing else: the request of the client with the
    token is the request of the client without one, that header added. *)
Theorem SetAuthorization_adds_one_header
    (order : list string) (c : Client W) (a : string) (rt : R) (rtVars : option V)
    (form : option (gmap string (list string))) (req : Request) :
  a <> ""%string ->
  NewRequest order (SetAuthorization c "") rt rtVars form = inr req ->
  NewRequest order (SetAuthorization c a) rt rtVars form =
    inr (with_Header req (<["Authorization"%string := [("Bearer " ++ a)%string]]> (Header req))).
Proof.
  intros Ha. unfold Client.NewRequest.
  destruct (URLPath rt _) as [e|path]; [discriminate|].
  destruct (url_Parse path) as [e|rel]; [discriminate|].
  destruct (resolve_method order) as [e|method]; [discriminate|].
  cbn [baseURL auth SetAuthorization].
  destruct (String.eqb_spec a "") as [|_]; [done|].
  destruct form as [f|]; [destruct (String.eqb method "GET" || String.eqb method "HEAD")|];
    cbv iota beta;
    (destruct (http_NewRequest _ _ _ _) as [e|r] eqn:Hn; [discriminate|]);
    apply http_NewRequest_inr in Hn as (_ & u & _ & ->);
    intros Hreq; injection Hreq as <-; cbn;
    unfold with_Header, Header_Add, Header_Set; cbn;
    rewrite ?lookup_empty; cbn; done.
Qed.

(** The body of a built request and its Content-Type header. *)
Lemma NewRequest_body_header
    (order : list string) (c : Client W) (rt : R) (rtVars : option V)
    (form : option (gmap string (list string))) (req : Request) :
  NewRequest order c rt rtVars form = inr req ->
  exists method,
    resolve_method order = inr method /\
    Body req =
      match form with
      | Some f =>
          if String.eqb method "GET" || String.eqb method "HEAD" then None
          else Some (Values_Encode f)
      | None => None
      end /\
    Header req !! "Content-Type"%string =
      match Body req with
      | Some _ => Some ["application/x-www-form-urlencoded"%string]
      | None => None
      end.
Proof.
  unfold Client.NewRequest.
  destruct (URLPath rt _) as [e|path]; [discriminate|].
  destruct (url_Parse path) as [e|rel]; [discriminate|].
  destruct (resolve_method order) as [e|method]; [discriminate|].
  intros Hreq. exists method. split; [done|].
  destruct form as [f|]; [destruct (String.eqb method "GET" || String.eqb method "HEAD")|];
    cbv iota beta in Hreq;
    (destruct (http_NewRequest _ _ _ _) as [e|r] eqn:Hn; [discriminate|]);
    apply http_NewRequest_inr in Hn as (_ & u & _ & ->);
    injection Hreq as <-;
    destruct (String.eqb (auth c) ""); cbn;
    unfold Header_Add, Header_Set;
    rewrite ?lookup_insert_eq, ?lookup_insert_ne, ?lookup_empty by done; done.
Qed.

(** X8: a built request has a body exactly when a form was given and the
    resolved method is neither GET nor HEAD; the body is then the encoded
    form, and the header Content-Type is there exactly when the body is. *)
Theorem NewRequest_body_and_content_type
    (order : list string) (c : Client W) (rt : R) (rtVars : option V)
    (form : option (gmap string (list string))) (req : Request) :
  NewRequest order c rt rtVars form = inr req ->
  exists method,
    resolve_method order = inr method /\
    Body req =
      match form with
      | Some f =>
          if String.eqb method "GET" || String.eqb method "HEAD" then None
          else Some (Values_Encode f)
      | None => None
      end /\
    Header req !! "Content-Type"%string =
      match Body req with
      | Some _ => Some ["application/x-www-form-urlencoded"%string]
      | None => None
      end.
Proof. apply NewRequest_body_header. Qed.

(** X9: a route whose several methods are all HEAD or OPTIONS resolves to
    the empty method.  The request built for it is a GET request, and a form
    given with it is its body, with the Content-Type of a form; its URL is
    the one resolved from the base URL and the path of the route: the form
    is not put into the query. *)
Theorem NewRequest_companions_only
    (order : list string) (c : Client W) (rt : R) (rtVars : option V)
    (f : gmap string (list string)) (req : Request) :
  (2 <= length order)%nat ->
  (forall m, m ∈ order -> m = "HEAD"%string \/ m = "OPTIONS"%string) ->
  NewRequest order c rt rtVars (Some f) = inr req ->
  resolve_method order = inr ""%string /\
  Method req = "GET"%string /\
  Body req = Some (Values_Encode f) /\
  Header req !! "Content-Type"%string = Some ["application/x-www-form-urlencoded"%string] /\
  exists path rel,
    URLPath rt (vars_or_empty rtVars) = inr path /\
    url_Parse path = inr rel /\
    url_Parse (URL_String (URL_ResolveReference (baseURL c) rel)) = inr (ReqURL req).
Proof.
  intros Hlen Hall Hreq.
  assert (""%string ∉ order) as Hne.
  { intros Hin. by destruct (Hall _ Hin). }
  assert (List.filter primary order = []) as Hf.
  { clear -Hall. induction order as [|m l IH]; [done|].
    cbn [List.filter].
    destruct (Hall m ltac:(left)) as [-> | ->]; cbn;
      apply IH; intros m' Hm'; apply Hall; by right. }
  assert (resolve_method order = inr ""%string) as Hres.
  { rewrite resolve_method_filter by done. rewrite Hf.
    destruct order as [|a [|b l]]; cbn [length] in Hlen; [lia..|done]. }
  split; [done|].
  unfold Client.NewRequest in Hreq. rewrite Hres in Hreq.
  destruct (URLPath rt _) as [e|path]; [discriminate|].
  destruct (url_Parse path) as [e|rel] eqn:Hrel; [discriminate|].
  change (String.eqb "" "GET" || String.eqb "" "HEAD") with false in Hreq.
  cbv iota beta in Hreq.
  destruct (http_NewRequest _ _ _ _) as [e|r] eqn:Hn; [discriminate|].
  apply http_NewRequest_inr in Hn as (_ & u & Hu & ->).
  assert (Header req !! "Content-Type"%string =
            Some ["application/x-www-form-urlencoded"%string] /\
          Method req = "GET"%string /\ Body req = Some (Values_Encode f) /\
          ReqURL req = u) as (Hc & Hm & Hb & Hurl).
  { destruct (negb (String.eqb (auth c) "")); injection Hreq as <-; cbn;
      unfold Header_Set; rewrite lookup_insert_eq; done. }
  repeat (split; [done|]).
  exists path, rel. by rewrite Hurl.
Qed.

End Routes.

(** X10: [Do] returns no error exactly when the status is from 199 to 299
    (199 counts) and, if a destination was given, the body decodes into
    it. *)
Theorem Do_succeeds_iff
    (c : Client W) (req : Request) (v : option iface) (w w' : W) (resp0 : Response) :
  v = None \/ rv_Kind v = Ptr ->
  do c req w = (inr resp0, w') ->
  err (Do c req v w).1 = None <->
  199 <= StatusCode resp0 <= 299 /\
  match v with
  | None => True
  | Some i => exists j, json_Decode (RespBody resp0) i = inr j
  end.
Proof.
  intros Hv Hdo. unfold Client.Do. rewrite Hdo.
  assert (negb (bool_decide (v = None) || is_Ptr (rv_Kind v)) = false) as ->.
  { destruct Hv as [-> | ->]; [done|]. by rewrite orb_true_r. }
  destruct (Z.gtb_spec (StatusCode resp0) 399).
  { split; [|lia].
    destruct (ioutil_ReadAll (RespBody resp0)); [done|].
    by destruct (usererrors_UnmarshalJSON _). }
  destruct (Z.gtb_spec (StatusCode resp0) 299), (Z.ltb_spec (StatusCode resp0) 199);
    cbn [orb]; try (split; [done|lia]).
  destruct v as [i|].
  - destruct (json_Decode (RespBody resp0) i) as [[e partial]|j] eqn:Hj; cbn.
    + split; [done|]. by intros [_ [j' Hj']].
    + split; [|done]. intros _. split; [lia|by exists j].
  - cbn. split; [|done]. intros _. split; [lia|done].
Qed.

(** X11: whenever the transport delivers a response, [Do] hands that
    response back, with its body closed, be there an error or not, and what
    the transport acts on is as the one call of the transport left it. *)
Theorem Do_returns_the_response_closed
    (c : Client W) (req : Request) (v : option iface) (w w' : W) (resp0 : Response) :
  v = None \/ rv_Kind v = Ptr ->
  do c req w = (inr resp0, w') ->
  resp (Do c req v w).1 = Some (Close resp0) /\
  closed (RespBody (Close resp0)) = true /\
  StatusCode (Close resp0) = StatusCode resp0 /\
  (Do c req v w).2 = w'.
Proof.
  intros Hv Hdo. unfold Client.Do. rewrite Hdo.
  assert (negb (bool_decide (v = None) || is_Ptr (rv_Kind v)) = false) as ->.
  { destruct Hv as [-> | ->]; [done|]. by rewrite orb_true_r. }
  destruct (StatusCode resp0 >? 399).
  { destruct (ioutil_ReadAll (RespBody resp0)); [done|].
    by destruct (usererrors_UnmarshalJSON _). }
  destruct ((StatusCode resp0 >? 299) || (StatusCode resp0 <? 199)); [done|].
  destruct v as [i|]; [|done].
  by destruct (json_Decode (RespBody resp0) i) as [[e partial]|j].
Qed.

(** X12: a value is stored through the destination only by the decoder:
    the destination is then a pointer, the transport delivered a response
    with status from 199 to 299, and the stored value is what the decoder
    assigned from its body.  Either the decoder succeeded and there is no
    error, or it failed after assigning, and the value is stored beside the
    error about the unparseable response body. *)
Theorem Do_stores_only_after_decoding
    (c : Client W) (req : Request) (v : option iface) (w : W) (j : J) :
  stored (Do c req v w).1 = Some j ->
  exists i resp0 w',
    v = Some i /\ ikind i = Ptr /\
    do c req w = (inr resp0, w') /\
    199 <= StatusCode resp0 <= 299 /\
    (json_Decode (RespBody resp0) i = inr j /\ err (Do c req v w).1 = None \/
     exists e,
       json_Decode (RespBody resp0) i = inl (e, Some j) /\
       err (Do c req v w).1 = Some (errors_Annotate e "unable to parse response body")).
Proof.
  unfold Client.Do.
  destruct (negb (bool_decide (v = None) || is_Ptr (rv_Kind v))) eqn:Hv; [done|].
  destruct (do c req w) as [[e|resp0] w'] eqn:Hdo; [done|].
  destruct (Z.gtb_spec (StatusCode resp0) 399).
  { destruct (ioutil_ReadAll (RespBody resp0)); [done|].
    by destruct (usererrors_UnmarshalJSON _). }
  destruct (Z.gtb_spec (StatusCode resp0) 299), (Z.ltb_spec (StatusCode resp0) 199);
    cbn [orb]; try done.
  destruct v as [i|]; [|done].
  assert (ikind i = Ptr) as Hk.
  { apply negb_false_iff in Hv. cbn in Hv. by destruct (ikind i). }
  destruct (json_Decode (RespBody resp0) i) as [[e partial]|j'] eqn:Hj;
    cbn; intros [= ->]; exists i, resp0, w';
    (split; [done|]); (split; [done|]); (split; [done|]); (split; [lia|]).
  - right. by exists e.
  - by left.
Qed.

(** A failing decode that has assigned shows in what [Do] returns: the value
    is stored, and the error is returned beside it. *)
Lemma Do_failed_decode_keeps_the_store
    (c : Client W) (req : Request) (i : iface) (w w' : W) (resp0 : Response)
    (e : error) (j : J) :
  ikind i = Ptr ->
  do c req w = (inr resp0, w') ->
  199 <= StatusCode resp0 <= 299 ->
  json_Decode (RespBody resp0) i = inl (e, Some j) ->
  Do c req (Some i) w =
    (Build_DoResult (Some (Close resp0))
       (Some (errors_Annotate e "unable to parse response body")) (Some j), w').
Proof.
  intros Hk Hdo Hcode Hj. unfold Client.Do. rewrite Hdo.
  cbn [rv_Kind]. rewrite Hk. cbn [is_Ptr]. rewrite orb_true_r. cbn [negb].
  destruct (Z.gtb_spec (StatusCode resp0) 399); [lia|].
  destruct (Z.gtb_spec (StatusCode resp0) 299), (Z.ltb_spec (StatusCode resp0) 199);
    try lia.
  cbn [orb]. by rewrite Hj.
Qed.

Section Calls.

Context {R V : Type} `{Route R} `{Vars V}.

(** X13: [execute] comes back with a response or with an error, never with
    both and never with neither; when the request cannot be built the error
    is that of [NewRequest] and the transport is not called. *)
Theorem execute_response_or_error
    (order : list string) (c : Client W) (rt : R) (rtVars : option V)
    (form : option (gmap string (list string))) (v : option iface) (w : W) :
  (err (execute order c rt rtVars form v w).1 = None <->
   exists x, resp (execute order c rt rtVars form v w).1 = Some x) /\
  (forall e, NewRequest order c rt rtVars form = inl e ->
     forall transport,
       execute order {| baseURL := baseURL c; do := transport; auth := auth c |}
               rt rtVars form v w =
         (Build_DoResult None (Some e) None, w)).
Proof.
  split.
  - unfold Client.execute.
    destruct (NewRequest order c rt rtVars form) as [e|req].
    { cbn. split; [done|]. by intros [x Hx]. }
    unfold Client.Do.
    destruct (negb (bool_decide (v = None) || is_Ptr (rv_Kind v))).
    { cbn. split; [done|]. by intros [x Hx]. }
    destruct (do c req w) as [[e|resp0] w'].
    { cbn. split; [done|]. by intros [x Hx]. }
    destruct (StatusCode resp0 >? 399).
    { destruct (ioutil_ReadAll (RespBody resp0)); cbn.
      - split; [done|]. by intros [x Hx].
      - destruct (usererrors_UnmarshalJSON _); cbn; (split; [done|]); by intros [x Hx]. }
    destruct ((StatusCode resp0 >? 299) || (StatusCode resp0 <? 199)); cbn.
    { split; [done|]. by intros [x Hx]. }
    destruct v as [i|]; cbn.
    + destruct (json_Decode (RespBody resp0) i) as [[e partial]|j]; cbn.
      * split; [done|]. by intros [x Hx].
      * split; [eauto|done].
    + split; [eauto|done].
  - intros e He transport. unfold Client.execute.
    assert (NewRequest order {| baseURL := baseURL c; do := transport; auth := auth c |}
              rt rtVars form = NewRequest order c rt rtVars form) as -> by reflexivity.
    by rewrite He.
Qed.

End Calls.

End Library.

End ClientMore.

(** ** Package client: the existence check *)

Module ClientCallsFacts.
Import Http Client ClientCalls.

Section Library.

Context {W J : Type}.
Variable url_Parse : string -> error + URL.
Variable URL_ResolveReference : URL -> URL -> URL.
Variable URL_String : URL -> string.
Variable Values_Encode : gmap string (list string) -> string.
Variable json_Decode : BodyReader -> iface -> (error * option J) + J.
Variable usererrors_UnmarshalJSON : list byte -> error + UserError.
Variable is_NotFound : UserError -> bool.
Context {R : Type} `{Route R} `{Vars User}.
Variable Routes_GetUser : R.

Local Abbreviation NewRequest :=
  (@Client.NewRequest W url_Parse URL_ResolveReference URL_String Values_Encode
                      R User _ _).
Local Abbreviation UserExists :=
  (@ClientCalls.UserExists W url_Parse URL_ResolveReference URL_String Values_Encode
                           J json_Decode usererrors_UnmarshalJSON is_NotFound R _ _
                           Routes_GetUser).

(** What [execute] comes to without a form and without a destination. *)
Lemma execute_plain {V : Type} `{Vars V}
    (order : list string) (c : Client W) (rt : R) (rtVars : option V) (w : W) :
  @Client.execute W url_Parse URL_ResolveReference URL_String Values_Encode J json_Decode
                  usererrors_UnmarshalJSON R V _ _ order c rt rtVars None None w =
    match @Client.NewRequest W url_Parse URL_ResolveReference URL_String Values_Encode
                             R V _ _ order c rt rtVars None with
    | inl e => (Build_DoResult None (Some e) None, w)
    | inr req =>
        match do c req w with
        | (inl e, w') => (Build_DoResult None (Some e) None, w')
        | (inr resp0, w') =>
            if StatusCode resp0 >? 399 then
              (Build_DoResult None
                 (Some match ioutil_ReadAll (RespBody resp0) with
                       | inl e => errors_Annotate e "unable to read response body"
                       | inr body =>
                           match usererrors_UnmarshalJSON body with
                           | inl e => errors_Annotate e "unable to parse error body"
                           | inr uerr => UserErr uerr
                           end
                       end) None, w')
            else if (StatusCode resp0 >? 299) || (StatusCode resp0 <? 199) then
              (Build_DoResult None
                 (Some (errors_Errorf "unexpected status code %d"
                          [ArgInt (StatusCode resp0)])) None, w')
            else (Build_DoResult (Some (Close resp0)) None None, w')
        end
    end.
Proof.
  unfold Client.execute.
  destruct (Client.NewRequest _ _ _ _ _ _ _ _ _) as [e|req]; [done|].
  unfold Client.Do. rewrite bool_decide_eq_true_2 by done. cbn [orb negb].
  destruct (do c req w) as [[e|resp0] w']; [done|].
  destruct (StatusCode resp0 >? 399).
  { destruct (ioutil_ReadAll (RespBody resp0)); [done|].
    by destruct (usererrors_UnmarshalJSON _). }
  by destruct ((StatusCode resp0 >? 299) || (StatusCode resp0 <? 199)).
Qed.

(** X14: UserExists says yes exactly when the request could be built and the
    transport answered it with status 204; for every other status that [Do]
    takes without an error, from 199 to 299 and 200 among them, it says no,
    without an error.  It never follows a nil response. *)
Theorem UserExists_true_iff_204 (order : list string) (c : Client W) (id : string) (w : W) :
  ((UserExists order c id w).1 = Returned true None <->
   exists req resp0 w',
     NewRequest order c Routes_GetUser (Some {| ID := id |}) None = inr req /\
     do c req w = (inr resp0, w') /\
     StatusCode resp0 = 204) /\
  (forall req resp0 w',
     NewRequest order c Routes_GetUser (Some {| ID := id |}) None = inr req ->
     do c req w = (inr resp0, w') ->
     199 <= StatusCode resp0 <= 299 ->
     StatusCode resp0 <> 204 ->
     UserExists order c id w = (Returned false None, w')) /\
  (UserExists order c id w).1 <> NilDereference.
Proof.
  assert (forall req resp0 w',
            NewRequest order c Routes_GetUser (Some {| ID := id |}) None = inr req ->
            do c req w = (inr resp0, w') ->
            199 <= StatusCode resp0 <= 299 ->
            StatusCode resp0 <> 204 ->
            UserExists order c id w = (Returned false None, w')) as Hother.
  { intros req resp0 w' Hreq Hdo Hcode Hne.
    unfold ClientCalls.UserExists. rewrite execute_plain, Hreq, Hdo.
    destruct (Z.gtb_spec (StatusCode resp0) 399); [lia|].
    destruct (Z.gtb_spec (StatusCode resp0) 299), (Z.ltb_spec (StatusCode resp0) 199);
      try lia.
    cbn [orb fst snd err resp Client.Close StatusCode].
    unfold StatusNoContent.
    by destruct (Z.eqb_spec (StatusCode resp0) 204). }
  cut (((UserExists order c id w).1 = Returned true None <->
        exists req resp0 w',
          NewRequest order c Routes_GetUser (Some {| ID := id |}) None = inr req /\
          do c req w = (inr resp0, w') /\
          StatusCode resp0 = 204) /\
       (UserExists order c id w).1 <> NilDereference).
  { intros [Hiff Hnil]. split; [exact Hiff|]. split; [exact Hother|exact Hnil]. }
  clear Hother.
  unfold ClientCalls.UserExists. rewrite execute_plain.
  destruct (NewRequest order c Routes_GetUser (Some {| ID := id |}) None) as [e|req].
  { cbn. destruct (asserts_NotFound is_NotFound e); cbn;
      (split; [|discriminate]); (split; [discriminate|]);
      intros (? & ? & ? & Hr & _); discriminate Hr. }
  destruct (do c req w) as [[e|resp0] w'] eqn:Hdo.
  { cbn. destruct (asserts_NotFound is_NotFound e); cbn;
      (split; [|discriminate]); (split; [discriminate|]);
      intros (? & ? & ? & [= <-] & Hd & _); rewrite Hdo in Hd; discriminate Hd. }
  destruct (Z.gtb_spec (StatusCode resp0) 399).
  { cbn. match goal with |- context [asserts_NotFound ?f ?e] =>
                           destruct (asserts_NotFound f e) end; cbn;
      (split; [|discriminate]); (split; [discriminate|]);
      intros (? & ? & ? & [= <-] & Hd & Hc); rewrite Hdo in Hd;
      injection Hd as <- <-; lia. }
  destruct (Z.gtb_spec (StatusCode resp0) 299), (Z.ltb_spec (StatusCode resp0) 199);
    cbn [orb]; cbn [fst snd err resp Client.Close StatusCode asserts_NotFound];
    try solve [ (split; [|discriminate]); (split; [discriminate|]);
                intros (? & ? & ? & [= <-] & Hd & Hc); rewrite Hdo in Hd;
                injection Hd as <- <-; lia ].
  split; [|discriminate]. split.
  - intros Hc. injection Hc as Hc. apply Z.eqb_eq in Hc.
    by exists req, resp0, w'.
  - intros (? & ? & ? & [= <-] & Hd & Hc). rewrite Hdo in Hd.
    injection Hd as <- <-. by rewrite Hc.
Qed.

(** X15: not found is read off the body of an error response, not off its
    status.  When the status is 400 or above and the body decodes to a user
    error of the type NotFound, UserExists says no without an error; when
    the body does not decode, it returns the annotated parse failure, for
    status 404 as for any other. *)
Theorem UserExists_not_found_by_body
    (order : list string) (c : Client W) (id : string) (w w' : W)
    (req : Request) (resp0 : Response) (body : list byte) :
  NewRequest order c Routes_GetUser (Some {| ID := id |}) None = inr req ->
  do c req w = (inr resp0, w') ->
  400 <= StatusCode resp0 ->
  ioutil_ReadAll (RespBody resp0) = inr body ->
  (forall u, usererrors_UnmarshalJSON body = inr u ->
     UserExists order c id w =
       (if is_NotFound u then Returned false None else Returned false (Some (UserErr u)),
        w')) /\
  (forall e, usererrors_UnmarshalJSON body = inl e ->
     UserExists order c id w =
       (Returned false (Some (errors_Annotate e "unable to parse error body")), w')).
Proof.
  intros Hreq Hdo Hcode Hread.
  unfold ClientCalls.UserExists. rewrite execute_plain, Hreq, Hdo.
  destruct (Z.gtb_spec (StatusCode resp0) 399); [|lia].
  rewrite Hread. split.
  - intros u ->. cbn. by destruct (is_NotFound u).
  - intros e ->. done.
Qed.

End Library.

End ClientCallsFacts.

(** ** Package app *)

Module AppFacts.
Import App.

Section Resources.

Context {W : Type}.

Lemma closeAll_append (l1 l2 : list (Closer W)) (w : W) :
  closeAll W (l1 ++ l2) w =
    match closeAll W l1 w with
    | (Some e, w') => (Some e, w')
    | (None, w') => closeAll W l2 w'
    end.
Proof.
  revert w. induction l1 as [|cls l1 IH]; intros w; [reflexivity|].
  cbn [app closeAll]. destruct (cls w) as [[e|] w']; [reflexivity|apply IH].
Qed.

(** X16: closing two lists of closers one after the other is closing their
    concatenation, unless the first list fails: then its error is the
    result and nothing of the second list is closed. *)
Theorem closeAll_app (l1 l2 : list (Closer W)) (w : W) :
  closeAll W (l1 ++ l2) w =
    match closeAll W l1 w with
    | (Some e, w') => (Some e, w')
    | (None, w') => closeAll W l2 w'
    end.
Proof. apply closeAll_append. Qed.

(** X17: closeAll stops at the first closer that fails: it returns that
    closer's error, and the closers after it are left open, whatever they
    are. *)
Theorem closeAll_stops_at_first_error
    (l1 l2 : list (Closer W)) (cls : Closer W) (w w1 w2 : W) (e : error) :
  closeAll W l1 w = (None, w1) ->
  cls w1 = (Some e, w2) ->
  closeAll W (l1 ++ cls :: l2) w = (Some e, w2).
Proof.
  intros H1 Hc. rewrite closeAll_append, H1. cbn [closeAll]. by rewrite Hc.
Qed.

Variable DB : Type.
Variable sqlx_Open : string -> string -> W -> (error + DB) * W.
Variable SetMaxIdleConns : DB -> Z -> W -> W.
Variable SetMaxOpenConns : DB -> Z -> W -> W.
Variable DB_Close : DB -> Closer W.
Variable Mux : Type.
Variable mux_New : Mux.
Variable mux_RouteFuncC : Mux -> string -> string -> Http.HandlerC -> Mux.
Variable mux_set_NotFoundHandler : Mux -> Http.HandlerC -> Mux.
Variable mux_ServeHTTPC : Mux -> Http.HandlerC.
Variable mux_GetURLVar : Http.Context -> string -> option string.

Local Abbreviation New :=
  (@App.New W DB sqlx_Open SetMaxIdleConns SetMaxOpenConns DB_Close Mux mux_New
            mux_RouteFuncC mux_set_NotFoundHandler mux_ServeHTTPC mux_GetURLVar).

(** X18: New never returns an App.  When the database cannot be opened it
    returns the error of sqlx.Open and nothing else happens; when it can,
    the connection limits are set, the handle is never closed, and New
    returns nil for the App and nil for the error. *)
Theorem New_returns_no_app (config : Configuration) (w : W) :
  (New config w).1.1 = None /\
  match sqlx_Open "postgres" (DBDSN config) w with
  | (inl e, w1) => New config w = ((None, Some e), w1)
  | (inr db, w1) =>
      New config w =
        ((None, None),
         SetMaxOpenConns db (DBMaxOpen config) (SetMaxIdleConns db (DBMaxIdle config) w1))
  end.
Proof.
  unfold App.New, buildDB.
  by destruct (sqlx_Open "postgres" (DBDSN config) w) as [[e|db] w1].
Qed.

End Resources.

End AppFacts.

(** ** The further properties in the concrete environment *)

Module MoreCases.
Import Http Client ClientCalls TestEnv Samples.

Lemma NewRequest_authorization_witness :
  Header (Build_Request "GET" (Build_URL "" "" None "" "/animals" "" "")
            {["Authorization"%string := ["Bearer tok"%string]]} None "")
    !! "Authorization"%string =
    if String.eqb (auth (SetAuthorization (client (reply 200 [])) "tok")) ""
    then None
    else Some [("Bearer " ++ auth (SetAuthorization (client (reply 200 [])) "tok"))%string].
Proof.
  apply (ClientMore.NewRequest_authorization
           url_Parse URL_ResolveReference URL_String Values_Encode
           ["GET"%string] (SetAuthorization (client (reply 200 [])) "tok")
           get_animals (None : option (gmap string string)) None).
  by vm_compute.
Defined.

Lemma SetAuthorization_adds_one_header_witness :
  NewRequest ["PUT"%string] (SetAuthorization (client (reply 200 [])) "tok")
             set_mood None (Some form_ab) =
    inr (with_Header
           (Build_Request "PUT" (Build_URL "" "" None "" "/moods/happy" "" "")
              {["Content-Type"%string := ["application/x-www-form-urlencoded"%string]]}
              (Some "a=b"%string) "")
           (<["Authorization"%string := [("Bearer " ++ "tok")%string]]>
              (Header
                 (Build_Request "PUT" (Build_URL "" "" None "" "/moods/happy" "" "")
                    {["Content-Type"%string := ["application/x-www-form-urlencoded"%string]]}
                    (Some "a=b"%string) "")))).
Proof.
  apply (ClientMore.SetAuthorization_adds_one_header
           url_Parse URL_ResolveReference URL_String Values_Encode
           ["PUT"%string] (client (reply 200 [])) "tok" set_mood
           (None : option (gmap string string)) (Some form_ab)).
  - discriminate.
  - by vm_compute.
Defined.

Lemma NewRequest_body_and_content_type_witness :
  exists method,
    resolve_method ["PUT"%string] = inr method /\
    Body (Build_Request "PUT" (Build_URL "" "" None "" "/moods/happy" "" "")
            {["Content-Type"%string := ["application/x-www-form-urlencoded"%string]]}
            (Some "a=b"%string) "") =
      (if String.eqb method "GET" || String.eqb method "HEAD" then None
       else Some (Values_Encode form_ab)) /\
    Header (Build_Request "PUT" (Build_URL "" "" None "" "/moods/happy" "" "")
              {["Content-Type"%string := ["application/x-www-form-urlencoded"%string]]}
              (Some "a=b"%string) "") !! "Content-Type"%string =
      match Body (Build_Request "PUT" (Build_URL "" "" None "" "/moods/happy" "" "")
                    {["Content-Type"%string := ["application/x-www-form-urlencoded"%string]]}
                    (Some "a=b"%string) "") with
      | Some _ => Some ["application/x-www-form-urlencoded"%string]
      | None => None
      end.
Proof.
  apply (ClientMore.NewRequest_body_and_content_type
           url_Parse URL_ResolveReference URL_String Values_Encode
           ["PUT"%string] (client (reply 200 [])) set_mood
           (None : option (gmap string string)) (Some form_ab)).
  by vm_compute.
Defined.

Lemma NewRequest_companions_only_witness :
  resolve_method ["HEAD"; "OPTIONS"]%string = inr ""%string /\
  Method (Build_Request "GET" (Build_URL "" "" None "" "/moods" "" "")
            {["Content-Type"%string := ["application/x-www-form-urlencoded"%string]]}
            (Some "a=b"%string) "") = "GET"%string /\
  Body (Build_Request "GET" (Build_URL "" "" None "" "/moods" "" "")
          {["Content-Type"%string := ["application/x-www-form-urlencoded"%string]]}
          (Some "a=b"%string) "") = Some (Values_Encode form_ab) /\
  Header (Build_Request "GET" (Build_URL "" "" None "" "/moods" "" "")
            {["Content-Type"%string := ["application/x-www-form-urlencoded"%string]]}
            (Some "a=b"%string) "") !! "Content-Type"%string =
    Some ["application/x-www-form-urlencoded"%string] /\
  exists path rel,
    URLPath companions (vars_or_empty (V:=gmap string string) None) = inr path /\
    url_Parse path = inr rel /\
    url_Parse (URL_String (URL_ResolveReference (baseURL (client (reply 200 []))) rel)) =
      inr (ReqURL (Build_Request "GET" (Build_URL "" "" None "" "/moods" "" "")
                     {["Content-Type"%string := ["application/x-www-form-urlencoded"%string]]}
                     (Some "a=b"%string) "")).
Proof.
  apply (ClientMore.NewRequest_companions_only
           url_Parse URL_ResolveReference URL_String Values_Encode
           ["HEAD"; "OPTIONS"]%string (client (reply 200 [])) companions
           (None : option (gmap string string)) form_ab).
  - cbn [length]. lia.
  - intros m Hm. apply elem_of_cons in Hm as [->|Hm]; [by left|].
    apply elem_of_cons in Hm as [->|Hm]; [by right|]. by apply elem_of_nil in Hm.
  - by vm_compute.
Defined.

(** The request of the route with HEAD and OPTIONS, beside that of a route
    with HEAD alone, and a method that is no token. *)
Example companions_request :
  NewRequest ["HEAD"; "OPTIONS"]%string (client (reply 200 [])) companions None
             (Some form_ab) =
    inr (Build_Request "GET" (Build_URL "" "" None "" "/moods" "" "")
           {["Content-Type"%string := ["application/x-www-form-urlencoded"%string]]}
           (Some "a=b"%string) "") /\
  NewRequest ["HEAD"%string] (client (reply 200 [])) head_only None (Some form_ab) =
    inr (Build_Request "HEAD" (Build_URL "" "" None "" "/moods" "a=b" "") ∅ None "") /\
  NewRequest ["GET IT"%string] (client (reply 200 [])) no_token None None =
    inl (fmt_Errorf "net/http: invalid method %q" [ArgString "GET IT"]).
Proof. repeat split; by vm_compute. Qed.

(** Status 199 is taken for a success. *)
Lemma Do_succeeds_iff_witness :
  err (Do (client (reply 199 [])) some_request None []).1 = None <->
  199 <= StatusCode (reply 199 []) <= 299 /\ True.
Proof.
  apply (ClientMore.Do_succeeds_iff json_Decode usererrors_UnmarshalJSON
           (client (reply 199 [])) some_request None [] [some_request] (reply 199 [])).
  - by left.
  - reflexivity.
Defined.

Lemma Do_returns_the_response_closed_witness :
  resp (Do (client teapot) some_request None []).1 = Some (Close teapot) /\
  closed (RespBody (Close teapot)) = true /\
  StatusCode (Close teapot) = StatusCode teapot /\
  (Do (client teapot) some_request None []).2 = [some_request].
Proof.
  apply (ClientMore.Do_returns_the_response_closed json_Decode usererrors_UnmarshalJSON
           (client teapot) some_request None [] [some_request] teapot).
  - by left.
  - reflexivity.
Defined.

Lemma Do_stores_only_after_decoding_witness :
  exists i resp0 w',
    Some user_pointer = Some i /\ ikind i = Ptr /\
    do (client (reply 200 (Bytes.of_string "{}"))) some_request [] = (inr resp0, w') /\
    199 <= StatusCode resp0 <= 299 /\
    (json_Decode (RespBody resp0) i = inr (Bytes.of_string "{}") /\
     err (Do (client (reply 200 (Bytes.of_string "{}"))) some_request (Some user_pointer)
             []).1 = None \/
     exists e,
       json_Decode (RespBody resp0) i = inl (e, Some (Bytes.of_string "{}")) /\
       err (Do (client (reply 200 (Bytes.of_string "{}"))) some_request (Some user_pointer)
               []).1 = Some (errors_Annotate e "unable to parse response body")).
Proof.
  apply (ClientMore.Do_stores_only_after_decoding json_Decode usererrors_UnmarshalJSON
           (client (reply 200 (Bytes.of_string "{}"))) some_request (Some user_pointer) []
           (Bytes.of_string "{}")).
  reflexivity.
Defined.

(** With a decoder that fails after assigning, the value is stored and the
    error is returned. *)
Example Do_stores_beside_an_error :
  @Client.Do (list Request) (list byte) mistyped_Decode usererrors_UnmarshalJSON
    (client (reply 200 (Bytes.of_string "{}"))) some_request (Some user_pointer) [] =
    (Build_DoResult (Some (Close (reply 200 (Bytes.of_string "{}"))))
       (Some (errors_Annotate
                (LibError "json" "cannot unmarshal number into Go value of type string")
                "unable to parse response body"))
       (Some (Bytes.of_string "{}")), [some_request]).
Proof. by vm_compute. Qed.

Lemma UserExists_not_found_by_body_witness :
  (forall u, usererrors_UnmarshalJSON (error_body "not_found" "no such user") = inr u ->
     UserExists ["GET"%string] (client not_found) "abc" [] =
       (if kind_is_not_found u then Returned false None
        else Returned false (Some (UserErr u)), [user_request])) /\
  (forall e, usererrors_UnmarshalJSON (error_body "not_found" "no such user") = inl e ->
     UserExists ["GET"%string] (client not_found) "abc" [] =
       (Returned false (Some (errors_Annotate e "unable to parse error body")),
        [user_request])).
Proof.
  apply (@ClientCallsFacts.UserExists_not_found_by_body
           (list Request) (list byte) url_Parse URL_ResolveReference URL_String Values_Encode
           json_Decode usererrors_UnmarshalJSON kind_is_not_found route route_Route user_vars
           get_user ["GET"%string] (client not_found) "abc" [] [user_request] user_request
           not_found (error_body "not_found" "no such user")).
  - by vm_compute.
  - reflexivity.
  - vm_compute. discriminate.
  - reflexivity.
Defined.

Lemma UserExists_true_iff_204_witness :
  UserExists ["GET"%string] (client (reply 200 [])) "abc" [] =
    (Returned false None, [user_request]).
Proof.
  apply (proj1 (proj2 (@ClientCallsFacts.UserExists_true_iff_204
           (list Request) (list byte) url_Parse URL_ResolveReference URL_String Values_Encode
           json_Decode usererrors_UnmarshalJSON kind_is_not_found route route_Route user_vars
           get_user ["GET"%string] (client (reply 200 [])) "abc" []))
           user_request (reply 200 []) [user_request]).
  - by vm_compute.
  - reflexivity.
  - cbn. lia.
  - discriminate.
Defined.

(** A user the server does not know, one it knows, and a 404 that is no
    error object. *)
Example UserExists_samples :
  (UserExists ["GET"%string] (client not_found) "abc" []).1 = Returned false None /\
  (UserExists ["GET"%string] (client (reply 204 [])) "abc" []).1 = Returned true None /\
  (UserExists ["GET"%string] (client (reply 200 [])) "abc" []).1 = Returned false None /\
  (UserExists ["GET"%string]
     (client (reply 404 (Bytes.of_string "404 page not found"))) "abc" []).1 =
    Returned false (Some (errors_Annotate (LibError "json" "not an error object")
                                          "unable to parse error body")).
Proof. repeat split; by vm_compute. Qed.

Lemma closeAll_stops_at_first_error_witness :
  App.closeAll (list string) ([closes "db"] ++ fails_to_close "cache" :: [closes "log"]) [] =
    (Some (LibError "io" "cache"), ["db"%string]).
Proof.
  apply (AppFacts.closeAll_stops_at_first_error
           [closes "db"] [closes "log"] (fails_to_close "cache") [] ["db"%string]
           ["db"%string] (LibError "io" "cache")).
  - reflexivity.
  - reflexivity.
Defined.

End MoreCases.
